(** * BSP-WhatsApp-GenAI: the webhook relay, embedded and verified

    A shallow embedding of [index.js], [services/LLMService.js] and
    [services/WhatsAppService.js].

    - JavaScript strings are sequences of UTF-16 code units.
    - Values produced by [JSON.parse] are an inductive type; property reads,
      [ToBoolean], [===] against a string literal and the [ToString] performed
      by template literals are written out for them.
    - [async]/[await] code is sequential: a function is a computation that
      reads the runtime environment (the [JSON.parse] built-in, the dynamic
      import, the two SDK back ends, [process.env]), emits a chronological
      list of events (console lines, back-end calls, the HTTP response, method
      entries) and ends normally or by throwing.
    - A promise that has settled is its outcome.
    - Values thrown by the SDKs are [Error] objects: they carry a [message];
      what the SDKs resolve with are objects.
    - The route handler is the function given to [app.post].  When it throws,
      it has sent no response itself; what the framework then does with the
      rejected promise (Express 4 leaves the request unanswered, Express 5
      answers through its error handler with status 500) is outside. *)

From Stdlib Require Import List ZArith NArith String Ascii Bool Lia.
From Corelib Require Import SpecFloat.
Import ListNotations.

Set Implicit Arguments.
#[local] Set Warnings "-register-all".

(* ================================================================== *)
(** * JavaScript values                                                 *)
(* ================================================================== *)

Module JS.

(** A string is a list of UTF-16 code units. *)
Definition jsstring := list N.

(** A source literal made of ASCII characters. *)
Definition js (s : string) : jsstring :=
  map N_of_ascii (list_ascii_of_string s).
Arguments js s%_string.

Fixpoint string_eqb (a b : jsstring) : bool :=
  match a, b with
  | [], [] => true
  | c :: a', d :: b' => N.eqb c d && string_eqb a' b'
  | _, _ => false
  end.

(** Values: what [JSON.parse] builds, and [undefined] for absent
    properties.  A number is an IEEE-754 binary64. *)
Inductive JSValue : Type :=
| JUndefined
| JNull
| JBoolean (b : bool)
| JNumber (x : spec_float)
| JString (s : jsstring)
| JArray (elements : list JSValue)
| JObject (properties : list (jsstring * JSValue)).

(** Thrown values: [new Error(message)] and the built-in error classes. *)
Record JSError : Type := mkError {
  error_name : jsstring;
  error_message : jsstring
}.

Definition Error (message : jsstring) : JSError := mkError (js "Error") message.
Definition TypeError (message : jsstring) : JSError := mkError (js "TypeError") message.
Definition SyntaxError (message : jsstring) : JSError := mkError (js "SyntaxError") message.

(** How an evaluation ends. *)
Inductive Completion (A : Type) : Type :=
| Normal (a : A)
| Throw (e : JSError).
Arguments Normal {A} a.
Arguments Throw {A} e.

(** Own data properties of an object, in creation order. *)
Fixpoint lookup (key : jsstring) (props : list (jsstring * JSValue)) : option JSValue :=
  match props with
  | [] => None
  | (k, v) :: rest => if string_eqb k key then Some v else lookup key rest
  end.

Definition has_own (key : jsstring) (props : list (jsstring * JSValue)) : bool :=
  match lookup key props with Some _ => true | None => false end.

(** [v.key] for the keys the handler reads ([from], [message_type], [text],
    [status], [messageId]): none of them exists on [Object.prototype],
    [Array.prototype] or the prototypes of the primitive wrappers, so the read
    is an own-property read on objects and [undefined] on every other value
    that can be dereferenced.  Reading a property of [null] or [undefined]
    throws. *)
Definition Get (v : JSValue) (key : jsstring) : Completion JSValue :=
  match v with
  | JUndefined =>
      Throw (TypeError (js "Cannot read properties of undefined (reading '" ++ key ++ js "')"))
  | JNull =>
      Throw (TypeError (js "Cannot read properties of null (reading '" ++ key ++ js "')"))
  | JObject props =>
      Normal (match lookup key props with Some x => x | None => JUndefined end)
  | JBoolean _ | JNumber _ | JString _ | JArray _ => Normal JUndefined
  end.

(** [ToBoolean]: the test of [if (v)], [v && ...] and [!v]. *)
Definition ToBoolean (v : JSValue) : bool :=
  match v with
  | JUndefined | JNull => false
  | JBoolean b => b
  | JNumber (S754_zero _) | JNumber S754_nan => false
  | JNumber _ => true
  | JString s => match s with [] => false | _ :: _ => true end
  | JArray _ | JObject _ => true
  end.

(** [v === 'literal']. *)
Definition strict_equals_string (v : JSValue) (literal : jsstring) : bool :=
  match v with
  | JString s => string_eqb s literal
  | _ => false
  end.

(** Whether [ToString(v)], as a template literal applies it to [${v}],
    returns.  A plain object converts through [Object.prototype.toString]
    unless an own property named [toString] shadows it; the values here hold no
    functions, so a shadowing property is not callable, [valueOf] then returns
    the object itself, and the conversion throws a TypeError.  An array
    converts through [join], which converts every element that is neither
    [null] nor [undefined]. *)
Fixpoint stringifies (v : JSValue) : bool :=
  match v with
  | JArray elements =>
      (fix every (l : list JSValue) : bool :=
         match l with
         | [] => true
         | x :: l' => stringifies x && every l'
         end) elements
  | JObject props => negb (has_own (js "toString") props)
  | JUndefined | JNull | JBoolean _ | JNumber _ | JString _ => true
  end.

(** ** String methods *)

(** [WhiteSpace] and [LineTerminator] code points of ECMA-262: what
    [String.prototype.trim] removes. *)
Definition is_white_space (c : N) : bool :=
  (c =? 9)%N || (c =? 11)%N || (c =? 12)%N || (c =? 32)%N || (c =? 160)%N
  || (c =? 5760)%N || ((8192 <=? c)%N && (c <=? 8202)%N)
  || (c =? 8239)%N || (c =? 8287)%N || (c =? 12288)%N || (c =? 65279)%N.

Definition is_line_terminator (c : N) : bool :=
  (c =? 10)%N || (c =? 13)%N || (c =? 8232)%N || (c =? 8233)%N.

Definition trimmable (c : N) : bool := is_white_space c || is_line_terminator c.

Fixpoint trimStart (s : jsstring) : jsstring :=
  match s with
  | [] => []
  | c :: s' => if trimmable c then trimStart s' else s
  end.

Definition trimEnd (s : jsstring) : jsstring := rev (trimStart (rev s)).

(** [s.trim()] *)
Definition trim (s : jsstring) : jsstring := trimEnd (trimStart s).

Fixpoint strip_prefix (pattern s : jsstring) : option jsstring :=
  match pattern, s with
  | [], _ => Some s
  | _ :: _, [] => None
  | c :: pattern', d :: s' => if (c =? d)%N then strip_prefix pattern' s' else None
  end.

(** [s.replace(pattern, replacement)] with a string pattern: only the first
    occurrence is replaced (the replacement holds no [$] pattern here). *)
Fixpoint replace (pattern replacement s : jsstring) : jsstring :=
  match strip_prefix pattern s with
  | Some rest => replacement ++ rest
  | None =>
      match s with
      | [] => []
      | c :: s' => c :: replace pattern replacement s'
      end
  end.

(** The code unit of ['+']. *)
Definition plus_sign : N := 43%N.

(** No trimmable code unit at the front. *)
Definition clean_front (s : jsstring) : Prop :=
  match s with
  | [] => True
  | c :: _ => trimmable c = false
  end.

(** No trimmable code unit at either end. *)
Definition clean_ends (s : jsstring) : Prop := clean_front s /\ clean_front (rev s).

End JS.

(* ================================================================== *)
(** * The two SDKs, the runtime and the effects of a run                *)
(* ================================================================== *)

Module Runtime.
Import JS.

(** ** [@google/genai] *)

Inductive Tool : Type := googleSearch.

Record Part : Type := { part_text : JSValue }.

Record Content : Type := { role : jsstring; parts : list Part }.

Record GenerateContentConfig : Type := {
  tools : list Tool;
  systemInstruction : jsstring;
  temperature : spec_float
}.

Record GenerateContentParameters : Type := {
  model : jsstring;
  contents : list Content;
  config : GenerateContentConfig
}.

(** [response.text] is [undefined] when the model returned no text part. *)
Record GenerateContentResponse : Type := { response_text : option jsstring }.

Record AIClient : Type := { apiKey : option jsstring }.

(** The module object of the dynamic import: its [GoogleGenAI] class, applied
    with [new] to the credential. *)
Record GenAIModule : Type := { GoogleGenAI : option jsstring -> Completion AIClient }.

(** ** [@vonage/server-sdk] *)

Inductive ComponentParameter : Type :=
| ImageParameter (url : jsstring)        (* { type: 'image', image: { url } } *)
| TextParameter (text : JSValue).        (* { type: 'text', text } *)

Inductive ComponentType : Type := header | body.

Record Component : Type := {
  component_type : ComponentType;
  parameters : list ComponentParameter
}.

Record Template : Type := {
  name : jsstring;
  language_code : jsstring;
  components : list Component
}.

(** The object given to [vonage.messages.send]; a property the caller does not
    set is [None]. *)
Record MessageRequest : Type := {
  to : JSValue;
  from : jsstring;
  channel : jsstring;
  messageType : jsstring;
  text : option jsstring;
  template : option Template
}.

Record MessageResponse : Type := { message_uuid : option jsstring }.

(** ** What a run can see of the outside *)

Record Env : Type := {
  JSON_parse : jsstring -> Completion JSValue;
  import_genai : Completion GenAIModule;
  models_generateContent : GenerateContentParameters -> Completion GenerateContentResponse;
  messages_send : MessageRequest -> Completion MessageResponse;
  GEMINI_API_KEY : option jsstring;
  VONAGE_WHATSAPP_NUMBER : option jsstring
}.

(** ** What a run does to the outside *)

(** The console lines of the three files, each with the values it interpolates
    or prints. *)
Inductive LogLine : Type :=
| LlmInitialized (model : jsstring)
| LlmInitFailed (message : jsstring)
| LlmGenerating (userMessage : JSValue)
| LlmReplyGenerated
| LlmGeminiError (message : jsstring)
| WaInitialized (sender : jsstring)
| WaMessageSent (uuid : option jsstring)
| WaErrorSending (error : JSError)
| WaTemplateSent (uuid : option jsstring)
| WaErrorSendingTemplate (error : JSError)
| WebhookHit
| ParseFailed
| ConnectionValid
| ReceivedText (sender textContent : JSValue)
| ReplySent (llmReply : jsstring) (sender : JSValue)
| CriticalFailure (message : jsstring)
| ReceivedNonText (messageType sender : JSValue)
| ReceivedStatus (status messageId : JSValue)
| Unrecognized.

Inductive Level : Type := log | error.

(** Entries of the service methods, recorded so that calls can be counted. *)
Inductive MethodCall : Type :=
| generateReply_called (userMessage : JSValue)
| sendTextMessage_called (recipient : JSValue) (text : jsstring)
| sendTemplateMessage_called (recipient : JSValue) (templateName : jsstring).

Inductive Event : Type :=
| Called (m : MethodCall)
| Console (level : Level) (line : LogLine)
| GenerateContent (params : GenerateContentParameters)
| MessagesSend (request : MessageRequest)
| Respond (status : N) (body : jsstring).

(** ** The monad of runs *)

Definition M (A : Type) : Type := Env -> Completion A * list Event.

Definition ret {A} (a : A) : M A := fun _ => (Normal a, []).

Definition bind {A B} (m : M A) (k : A -> M B) : M B :=
  fun env =>
    match m env with
    | (Normal a, t1) => let (r, t2) := k a env in (r, t1 ++ t2)
    | (Throw e, t1) => (Throw e, t1)
    end.

Definition throw {A} (e : JSError) : M A := fun _ => (Throw e, []).

(** [try { m } catch (e) { handler e }] *)
Definition try_catch {A} (m : M A) (handler : JSError -> M A) : M A :=
  fun env =>
    match m env with
    | (Normal a, t1) => (Normal a, t1)
    | (Throw e, t1) => let (r, t2) := handler e env in (r, t1 ++ t2)
    end.

(** Running [m] to its outcome without raising it: calling an [async]
    function gives a promise, and [try { x = m } catch (e) { return ... }]
    branches on the outcome. *)
Definition attempt {A} (m : M A) : M (Completion A) :=
  fun env => let (r, t) := m env in (Normal r, t).

(** [await p] on a settled promise; also lifts a pure step that may throw. *)
Definition await {A} (p : Completion A) : M A := fun _ => (p, []).

Definition ask {A} (field : Env -> A) : M A := fun env => (Normal (field env), []).

(** A call into the outside that takes a request. *)
Definition request {Q A} (backend : Env -> Q -> Completion A) (q : Q) : M A :=
  fun env => (backend env q, []).

Definition emit (e : Event) : M unit := fun _ => (Normal tt, [e]).

Definition console_log (line : LogLine) : M unit := emit (Console log line).
Definition console_error (line : LogLine) : M unit := emit (Console error line).
Definition called (m : MethodCall) : M unit := emit (Called m).

(** [${v}] inside a template literal. *)
Definition interpolate (v : JSValue) : M unit :=
  if stringifies v then ret tt
  else throw (TypeError (js "Cannot convert object to primitive value")).

Definition run {A} (m : M A) (env : Env) : Completion A * list Event := m env.
Definition outcome {A} (m : M A) (env : Env) : Completion A := fst (m env).
Definition trace {A} (m : M A) (env : Env) : list Event := snd (m env).

End Runtime.

Declare Scope run_scope.
Delimit Scope run_scope with run.
Notation "x <- m ;; k" := (Runtime.bind m (fun x => k))
  (at level 61, m at next level, right associativity) : run_scope.
Notation "m ;; k" := (Runtime.bind m (fun _ => k))
  (at level 61, right associativity) : run_scope.

(* ================================================================== *)
(** * services/LLMService.js                                           *)
(* ================================================================== *)

Module LLMService.
Import JS Runtime.
Local Open Scope run_scope.

(** The fields of an instance.  [isReady] is the promise returned by
    [_initializeClient], as it settles. *)
Record t : Type := {
  ai : option AIClient;
  model : jsstring;
  knowledgeBase : JSValue;
  systemPrompt : jsstring;
  isReady : Completion unit
}.

(** [!process.env.X]: unset or empty. *)
Definition unset (variable : option jsstring) : bool :=
  match variable with
  | Some (_ :: _) => false
  | Some [] | None => true
  end.

(** The literal of [temperature: 0.6]: the binary64 nearest to 6/10. *)
Definition temperature_0_6 : spec_float := S754_finite false 5404319552844595 (-53).

(** The string returned when the generation call fails. *)
Definition fallback_reply : jsstring :=
  js "Apologies, Sohan! I'm running into a core system error. Could you please rephrase your request or try a technical topic?".

(** The error of the readiness guard in [generateReply]. *)
Definition client_not_ready : JSError :=
  Error (js "LLMService is not ready. Client initialization failed.").

(** [async _initializeClient()].  The source stores the client in [this.ai];
    here the client is the result and [constructor] stores it. *)
Definition _initializeClient (this_model : jsstring) : M AIClient :=
  try_catch
    (imported <- ask import_genai ;;
     geminiModule <- await imported ;;
     key <- ask GEMINI_API_KEY ;;
     client <- await (GoogleGenAI geminiModule key) ;;
     console_log (LlmInitialized this_model) ;;
     ret client)
    (fun err =>
       console_error (LlmInitFailed (error_message err)) ;;
       throw err).

(** [constructor()].  [loaded] and [prompt] are what [_loadKnowledgeBase()]
    and [_buildSystemPrompt()] return (file access and [JSON.stringify]). *)
Definition constructor (loaded : JSValue) (prompt : jsstring) : M t :=
  key <- ask GEMINI_API_KEY ;;
  if unset key then
    throw (Error (js "CRITICAL: LLMService failed: GEMINI_API_KEY is not set. Cannot initialize."))
  else
    let this_model := js "gemini-2.5-flash" in
    settled <- attempt (_initializeClient this_model) ;;
    ret {| ai := match settled with Normal client => Some client | Throw _ => None end;
           model := this_model;
           knowledgeBase := loaded;
           systemPrompt := prompt;
           isReady := match settled with Normal _ => Normal tt | Throw e => Throw e end |}.

(** [response.text.trim()] *)
Definition text_trim (response : GenerateContentResponse) : Completion jsstring :=
  match response_text response with
  | Some s => Normal (trim s)
  | None => Throw (TypeError (js "Cannot read properties of undefined (reading 'trim')"))
  end.

(** [async generateReply(userMessage)] *)
Definition generateReply (this : t) (userMessage : JSValue) : M jsstring :=
  called (generateReply_called userMessage) ;;
  await (isReady this) ;;
  match ai this with
  | None => throw client_not_ready
  | Some _ =>
      interpolate userMessage ;;
      console_log (LlmGenerating userMessage) ;;
      let contents := [ {| role := js "user"; parts := [ {| part_text := userMessage |} ] |} ] in
      try_catch
        (let config := {| tools := [googleSearch];
                          systemInstruction := systemPrompt this;
                          temperature := temperature_0_6 |} in
         let params := {| Runtime.model := model this;
                          Runtime.contents := contents;
                          Runtime.config := config |} in
         emit (GenerateContent params) ;;
         response <- request models_generateContent params ;;
         reply <- await (text_trim response) ;;
         console_log LlmReplyGenerated ;;
         ret reply)
        (fun error =>
           console_error (LlmGeminiError (error_message error)) ;;
           ret fallback_reply)
  end.

End LLMService.

(* ================================================================== *)
(** * services/WhatsAppService.js                                      *)
(* ================================================================== *)

Module WhatsAppService.
Import JS Runtime.
Local Open Scope run_scope.

Record t : Type := { vonageWhatsAppNumber : jsstring }.

(** An element of [bodyParameters]. *)
Record BodyParameter : Type := { value : JSValue }.

(** [constructor()]; building the SDK client has no effect of its own. *)
Definition constructor : M t :=
  number <- ask VONAGE_WHATSAPP_NUMBER ;;
  match number with
  | Some (c :: rest) =>
      console_log (WaInitialized (c :: rest)) ;;
      ret {| vonageWhatsAppNumber := c :: rest |}
  | Some [] | None =>
      throw (Error (js "VONAGE_WHATSAPP_NUMBER is not set. Cannot initialize WhatsAppService."))
  end.

(** [async sendTextMessage(to, text)] *)
Definition sendTextMessage (this : t) (to : JSValue) (text : jsstring)
  : M MessageResponse :=
  called (sendTextMessage_called to text) ;;
  try_catch
    (let cleanedFromNumber := replace (js "+") (js "") (vonageWhatsAppNumber this) in
     let message := {| Runtime.to := to;
                       Runtime.from := cleanedFromNumber;
                       Runtime.messageType := js "text";
                       Runtime.text := Some text;
                       Runtime.channel := js "whatsapp";
                       Runtime.template := None |} in
     emit (MessagesSend message) ;;
     response <- request messages_send message ;;
     let messageUUID := message_uuid response in
     console_log (WaMessageSent messageUUID) ;;
     ret response)
    (fun error =>
       console_error (WaErrorSending error) ;;
       throw (Error (js "Failed to send WhatsApp message: " ++ error_message error))).

(** [mediaUrl] as a condition: [null], [undefined] and the empty string are
    falsy. *)
Definition given (mediaUrl : option jsstring) : bool :=
  match mediaUrl with
  | Some (_ :: _) => true
  | Some [] | None => false
  end.

(** [bodyParameters && bodyParameters.length > 0] *)
Definition non_empty (bodyParameters : option (list BodyParameter)) : bool :=
  match bodyParameters with
  | Some (_ :: _) => true
  | Some [] | None => false
  end.

(** [async sendTemplateMessage(to, templateName, templateLanguage,
    bodyParameters, mediaUrl = null)] *)
Definition sendTemplateMessage (this : t) (to : JSValue)
    (templateName templateLanguage : jsstring)
    (bodyParameters : option (list BodyParameter))
    (mediaUrl : option jsstring) : M MessageResponse :=
  called (sendTemplateMessage_called to templateName) ;;
  let components := [] in
  let components :=
    if given mediaUrl then
      components ++ [ {| component_type := header;
                         parameters := [ ImageParameter (match mediaUrl with Some url => url | None => [] end) ] |} ]
    else components in
  let components :=
    if non_empty bodyParameters then
      components ++ [ {| component_type := body;
                         parameters := map (fun p => TextParameter (value p))
                                           (match bodyParameters with Some l => l | None => [] end) |} ]
    else components in
  try_catch
    (let message := {| Runtime.to := to;
                       Runtime.from := vonageWhatsAppNumber this;
                       Runtime.channel := js "whatsapp";
                       Runtime.messageType := js "template";
                       Runtime.text := None;
                       Runtime.template := Some {| name := templateName;
                                                   language_code := templateLanguage;
                                                   Runtime.components := components |} |} in
     emit (MessagesSend message) ;;
     response <- request messages_send message ;;
     let messageUUID := message_uuid response in
     console_log (WaTemplateSent messageUUID) ;;
     ret response)
    (fun error =>
       console_error (WaErrorSendingTemplate error) ;;
       throw (Error (js "Failed to send rich media template: " ++ error_message error))).

End WhatsAppService.

(* ================================================================== *)
(** * index.js                                                         *)
(* ================================================================== *)

Module Index.
Import JS Runtime.
Local Open Scope run_scope.

(** [res.status(code).send(body)] *)
Definition res_status_send (code : N) (body : jsstring) : M unit :=
  emit (Respond code body).

(** The handler of [app.post('/vonage/inbound', express.text(...), ...)];
    [req_body] is the raw body that [express.text] put on [req.body].  A run
    that ends by throwing is a handler whose promise rejects: nothing after
    the throw is executed, so [res.status(200).send] is not. *)
Definition vonage_inbound (whatsAppService : WhatsAppService.t)
    (llmService : LLMService.t) (req_body : jsstring) : M unit :=
  console_log WebhookHit ;;
  parsed <- attempt (request JSON_parse req_body) ;;
  match parsed with
  | Throw _ =>
      console_error ParseFailed ;;
      res_status_send 400 (js "Invalid JSON payload.")
  | Normal message =>
      console_log ConnectionValid ;;
      from <- await (Get message (js "from")) ;;
      messageType <- await (Get message (js "message_type")) ;;
      textContent <- await (Get message (js "text")) ;;
      (if strict_equals_string messageType (js "text") && ToBoolean textContent then
         interpolate from ;;
         interpolate textContent ;;
         console_log (ReceivedText from textContent) ;;
         try_catch
           (llmReply <- LLMService.generateReply llmService textContent ;;
            WhatsAppService.sendTextMessage whatsAppService from llmReply ;;
            interpolate from ;;
            console_log (ReplySent llmReply from))
           (fun error =>
              console_error (CriticalFailure (error_message error)))
       else if ToBoolean messageType then
         interpolate messageType ;;
         interpolate from ;;
         console_log (ReceivedNonText messageType from)
       else
         status <- await (Get message (js "status")) ;;
         if ToBoolean status then
           status <- await (Get message (js "status")) ;;
           interpolate status ;;
           messageId <- await (Get message (js "messageId")) ;;
           interpolate messageId ;;
           console_log (ReceivedStatus status messageId)
         else
           console_log Unrecognized) ;;
      res_status_send 200 (js "Message processed successfully.")
  end.

End Index.

(* ================================================================== *)
(** * Observations on a run, and the words of the specification        *)
(* ================================================================== *)

Module Observe.
Import JS Runtime.

(** ** Reading a trace *)

Definition responses (t : list Event) : list (N * jsstring) :=
  flat_map (fun e => match e with Respond code content => [(code, content)] | _ => [] end) t.

Definition generateReply_calls (t : list Event) : list JSValue :=
  flat_map (fun e => match e with Called (generateReply_called u) => [u] | _ => [] end) t.

Definition sendTextMessage_calls (t : list Event) : list (JSValue * jsstring) :=
  flat_map (fun e => match e with Called (sendTextMessage_called r s) => [(r, s)] | _ => [] end) t.

Definition generation_requests (t : list Event) : list GenerateContentParameters :=
  flat_map (fun e => match e with GenerateContent p => [p] | _ => [] end) t.

Definition send_requests (t : list Event) : list MessageRequest :=
  flat_map (fun e => match e with MessagesSend m => [m] | _ => [] end) t.

(** A trace without any call of a service method or of a back end. *)
Definition quiet (t : list Event) : Prop :=
  generateReply_calls t = [] /\ sendTextMessage_calls t = []
  /\ generation_requests t = [] /\ send_requests t = [].

(** The acknowledgement of [index.js]. *)
Definition acknowledged (t : list Event) : Prop :=
  responses t = [(200%N, js "Message processed successfully.")].

(** ** Shapes of a payload *)

(** The payload has [message_type === 'text'] and a truthy [text]; [sender]
    is its [from]. *)
Definition text_message (message sender textContent : JSValue) : Prop :=
  Get message (js "from") = Normal sender
  /\ Get message (js "message_type") = Normal (JString (js "text"))
  /\ Get message (js "text") = Normal textContent
  /\ ToBoolean textContent = true.

(** The request that [generateReply] builds for a user message. *)
Definition generation_request (service : LLMService.t) (userMessage : JSValue)
  : GenerateContentParameters :=
  {| model := LLMService.model service;
     contents := [ {| role := js "user"; parts := [ {| part_text := userMessage |} ] |} ];
     config := {| tools := [googleSearch];
                  systemInstruction := LLMService.systemPrompt service;
                  temperature := LLMService.temperature_0_6 |} |}.

(** The rational value of a finite binary64. *)
Definition float_value (x : spec_float) : option (Z * Z) :=
  match x with
  | S754_zero _ => Some (0, 1)%Z
  | S754_finite s m e =>
      let n := if s then Z.neg m else Z.pos m in
      Some (if (0 <=? e)%Z then (n * 2 ^ e, 1)%Z else (n, 2 ^ (- e))%Z)
  | S754_infinity _ | S754_nan => None
  end.

(** ** The sender identity in the words of the specification *)

(** "normalized by stripping a leading [+] if present" *)
Definition strip_leading_plus (s : jsstring) : jsstring :=
  match s with
  | c :: rest => if (c =? plus_sign)%N then rest else s
  | [] => []
  end.

End Observe.

(* ================================================================== *)
(** * Sample payloads and environments                                  *)
(* ================================================================== *)

Module Samples.
Import JS Runtime.

(** A JSON string token: the text between two quotation marks. *)
Definition quoted (s : string) : jsstring := [34%N] ++ js s ++ [34%N].
Arguments quoted s%_string.

(** [{"from":"15551234567","message_type":"text","text":"What is the VIP price?"}] *)
Definition text_body : jsstring :=
  js "{" ++ quoted "from" ++ js ":" ++ quoted "15551234567" ++ js ","
  ++ quoted "message_type" ++ js ":" ++ quoted "text" ++ js ","
  ++ quoted "text" ++ js ":" ++ quoted "What is the VIP price?" ++ js "}".

Definition text_payload : JSValue :=
  JObject [ (js "from", JString (js "15551234567"));
            (js "message_type", JString (js "text"));
            (js "text", JString (js "What is the VIP price?")) ].

(** [{"from":{"toString":0},"message_type":"text","text":"hi"}] *)
Definition unprintable_sender_body : jsstring :=
  js "{" ++ quoted "from" ++ js ":{" ++ quoted "toString" ++ js ":0},"
  ++ quoted "message_type" ++ js ":" ++ quoted "text" ++ js ","
  ++ quoted "text" ++ js ":" ++ quoted "hi" ++ js "}".

Definition unprintable_sender_payload : JSValue :=
  JObject [ (js "from", JObject [ (js "toString", JNumber (S754_zero false)) ]);
            (js "message_type", JString (js "text"));
            (js "text", JString (js "hi")) ].

(** [{"from":"15551234567","message_type":"image"}] *)
Definition image_body : jsstring :=
  js "{" ++ quoted "from" ++ js ":" ++ quoted "15551234567" ++ js ","
  ++ quoted "message_type" ++ js ":" ++ quoted "image" ++ js "}".

Definition image_payload : JSValue :=
  JObject [ (js "from", JString (js "15551234567"));
            (js "message_type", JString (js "image")) ].

Definition null_body : jsstring := js "null".

Definition malformed_body : jsstring := js "{oops".

(** [JSON.parse] on the sample bodies; every other body is taken as
    malformed, which is all the samples need. *)
Definition parse_samples (body : jsstring) : Completion JSValue :=
  if string_eqb body text_body then Normal text_payload
  else if string_eqb body unprintable_sender_body then Normal unprintable_sender_payload
  else if string_eqb body image_body then Normal image_payload
  else if string_eqb body null_body then Normal JNull
  else Throw (SyntaxError (js "Unexpected token in JSON")).

Definition genai_module : GenAIModule :=
  {| GoogleGenAI := fun key => Normal {| apiKey := key |} |}.

Definition module_not_found : JSError :=
  Error (js "Cannot find package '@google/genai'").

Definition quota_exceeded : JSError := Error (js "429 Too Many Requests").

Definition unauthorized : JSError := Error (js "Request failed with status code 401").

(** An environment from the outcome of the import and the behaviour of the
    two back ends. *)
Definition environment (imported : Completion GenAIModule)
    (generation : Completion GenerateContentResponse)
    (delivery : Completion MessageResponse) : Env :=
  {| JSON_parse := parse_samples;
     import_genai := imported;
     models_generateContent := fun _ => generation;
     messages_send := fun _ => delivery;
     GEMINI_API_KEY := Some (js "test-key");
     VONAGE_WHATSAPP_NUMBER := Some (js "+14157386102") |}.

Definition model_answer : GenerateContentResponse :=
  {| response_text := Some (js "  The VIP Luxury Price is 235 euro. ") |}.

Definition receipt : MessageResponse :=
  {| message_uuid := Some (js "aaaaaaaa-bbbb-cccc-dddd-0123456789ab") |}.

(** Everything works. *)
Definition healthy : Env := environment (Normal genai_module) (Normal model_answer) (Normal receipt).

(** The generation back end rejects. *)
Definition generation_down : Env :=
  environment (Normal genai_module) (Throw quota_exceeded) (Normal receipt).

(** The messaging back end rejects. *)
Definition delivery_down : Env :=
  environment (Normal genai_module) (Normal model_answer) (Throw unauthorized).

(** The dynamic import rejects. *)
Definition import_broken : Env :=
  environment (Throw module_not_found) (Normal model_answer) (Normal receipt).

(** The services as [index.js] builds them at start-up in [env]. *)
Definition started_llm (env : Env) : option LLMService.t :=
  match LLMService.constructor (JObject []) (js "You are Ari.") env with
  | (Normal service, _) => Some service
  | (Throw _, _) => None
  end.

Definition ready_llm : LLMService.t :=
  {| LLMService.ai := Some {| apiKey := Some (js "test-key") |};
     LLMService.model := js "gemini-2.5-flash";
     LLMService.knowledgeBase := JObject [];
     LLMService.systemPrompt := js "You are Ari.";
     LLMService.isReady := Normal tt |}.

Definition failed_llm : LLMService.t :=
  {| LLMService.ai := None;
     LLMService.model := js "gemini-2.5-flash";
     LLMService.knowledgeBase := JObject [];
     LLMService.systemPrompt := js "You are Ari.";
     LLMService.isReady := Throw module_not_found |}.

Definition whatsapp : WhatsAppService.t :=
  {| WhatsAppService.vonageWhatsAppNumber := js "+14157386102" |}.

(** A sender identity with a ['+'] that is not in front. *)
Definition whatsapp_inner_plus : WhatsAppService.t :=
  {| WhatsAppService.vonageWhatsAppNumber := js "00+14157386102" |}.

(** The reply to [text_payload] as [sendTextMessage] hands it to the SDK in
    [healthy] and [delivery_down]. *)
Definition reply_message : MessageRequest :=
  {| to := JString (js "15551234567");
     from := js "14157386102";
     channel := js "whatsapp";
     messageType := js "text";
     text := Some (js "The VIP Luxury Price is 235 euro.");
     template := None |}.

Definition cruise_parameters : list WhatsAppService.BodyParameter :=
  [ {| WhatsAppService.value := JString (js "Sohan") |};
    {| WhatsAppService.value := JString (js "Standard Cruise") |};
    {| WhatsAppService.value := JString (js "119.00") |} ].

Definition banner : jsstring :=
  js "https://www.athensdaycruise.gr/wp-content/uploads/2024/12/Hydra_history-scaled.jpg".

End Samples.

(* ================================================================== *)
(** * Start-up: the knowledge base, the system prompt, the services     *)
(* ================================================================== *)

Module Startup.
Import JS Runtime.
Local Open Scope run_scope.

(** The template literal of [_buildSystemPrompt] up to [${jsonString}]. *)
Definition prompt_head : jsstring :=
  [10%N]
  ++ js "            You are Ari, the **Official Digital Cruise Consultant** for Athens Day Cruise. "
  ++ [10%N]
  ++ js "            Your mission is to provide helpful, enthusiastic, professional, and accurate information to customers."
  ++ [10%N]
  ++ js "            "
  ++ [10%N]
  ++ js "            **I. CORE INSTRUCTIONS:**"
  ++ [10%N]
  ++ js "            1. **Prioritize JSON:** You MUST strictly use the data provided in the KNOWLEDGE BASE for all questions about cruise details, schedule, prices, and policies. Do not invent information found in the JSON."
  ++ [10%N]
  ++ js "            2. **Pricing & Upsell:** When asked about price, always quote the **Standard Price ("
  ++ [226%N; 8218%N; 172%N]
  ++ js "119)** and the **VIP Luxury Price ("
  ++ [226%N; 8218%N; 172%N]
  ++ js "235)** to upsell the user. Highlight the **included transfers** in the VIP package."
  ++ [10%N]
  ++ js "            3. **Booking:** Conclude conversations about price, packages, or reservation with the booking link: https://www.athensdaycruise.gr/booking"
  ++ [10%N]
  ++ js "            "
  ++ [10%N]
  ++ js "            **II. TOOL USE (Google Search):**"
  ++ [10%N]
  ++ js "            * You are equipped with the **Google Search** tool."
  ++ [10%N]
  ++ js "            * Use this tool ONLY for dynamic or external information not found in your JSON (e.g., current weather, specific airport transfer logistics, external news). Do not use the tool for prices or schedules already in the JSON."
  ++ [10%N; 10%N]
  ++ js "            ---"
  ++ [10%N]
  ++ js "            **ATHENS DAY CRUISE KNOWLEDGE BASE (Source of Truth):**"
  ++ [10%N]
  ++ js "            ".

(** The template literal after [${jsonString}]. *)
Definition prompt_tail : jsstring :=
  [10%N]
  ++ js "            ---"
  ++ [10%N]
  ++ js "        ".

(** What [_loadKnowledgeBase()] returns, and the [error.message] that its
    [console.error] prints when it falls back. *)
Record Loaded : Type := {
  knowledge : JSValue;
  complaint : option jsstring
}.

(** [_loadKnowledgeBase()].  [file] is the outcome of
    [fs.readFileSync(jsonPath, 'utf8')]; the path is a constant. *)
Definition _loadKnowledgeBase (file : Completion jsstring) (env : Env) : Loaded :=
  match
    match file with
    | Normal data => JSON_parse env data
    | Throw thrown => Throw thrown
    end
  with
  | Normal parsed => {| knowledge := parsed; complaint := None |}
  | Throw thrown => {| knowledge := JObject []; complaint := Some (error_message thrown) |}
  end.

(** [_buildSystemPrompt()].  [JSON_stringify v] is [JSON.stringify(v, null, 2)]. *)
Definition _buildSystemPrompt (JSON_stringify : JSValue -> jsstring)
    (this_knowledgeBase : JSValue) : jsstring :=
  let jsonString := JSON_stringify this_knowledgeBase in
  trim (prompt_head ++ jsonString ++ prompt_tail).

(** [new LLMService()]: the constructor of [LLMService] on what the two
    methods above return. *)
Definition new_LLMService (file : Completion jsstring)
    (JSON_stringify : JSValue -> jsstring) : M LLMService.t :=
  fun env =>
    let loaded := _loadKnowledgeBase file env in
    LLMService.constructor (knowledge loaded)
      (_buildSystemPrompt JSON_stringify (knowledge loaded)) env.

(** The two services of [index.js], in the order in which it builds them. *)
Definition services (file : Completion jsstring)
    (JSON_stringify : JSValue -> jsstring) : M (WhatsAppService.t * LLMService.t) :=
  whatsAppService <- WhatsAppService.constructor ;;
  llmService <- new_LLMService file JSON_stringify ;;
  ret (whatsAppService, llmService).

End Startup.

(* ================================================================== *)
(** * More samples                                                     *)
(* ================================================================== *)

Module MoreSamples.
Import JS Runtime.

(** The model answers with white space only. *)
Definition blank_answer : GenerateContentResponse :=
  {| response_text := Some [32%N; 10%N; 9%N] |}.

Definition blank_model : Env :=
  Samples.environment (Normal Samples.genai_module) (Normal blank_answer) (Normal Samples.receipt).

(** The model answers without a text part. *)
Definition silent_model : Env :=
  Samples.environment (Normal Samples.genai_module)
    (Normal {| response_text := None |}) (Normal Samples.receipt).

(** [{"from":"15551234567","message_type":"text","text":"What is the VIP price?"}]
    is the only body these environments need; see [Samples.parse_samples]. *)
Definition file_missing : Completion jsstring :=
  Throw (Error (js "ENOENT: no such file or directory")).

(** A stand-in for [JSON.stringify(v, null, 2)] that is right on the empty
    object and on [null]. *)
Definition stringify_samples (v : JSValue) : jsstring :=
  match v with
  | JObject [] => js "{}"
  | JNull => js "null"
  | _ => js "[object]"
  end.

End MoreSamples.

(* ================================================================== *)
(** * Facts about the string methods                                   *)
(* ================================================================== *)

Section StringFacts.
Import JS.

Lemma js_plus : js "+" = [plus_sign].
Proof. reflexivity. Qed.

Lemma string_eqb_eq (a b : jsstring) : string_eqb a b = true <-> a = b.
Proof.
  revert b; induction a as [|c a IH]; intros [|d b]; simpl; split;
    try discriminate; try reflexivity.
  - intros H. apply andb_true_iff in H as [Hc Hr].
    apply N.eqb_eq in Hc. apply IH in Hr. congruence.
  - intros H. injection H as -> ->.
    rewrite N.eqb_refl. simpl. now apply IH.
Qed.

(** ** [trim] *)

Lemma trimStart_split (s : jsstring) :
  exists pre, s = pre ++ trimStart s /\ forallb trimmable pre = true.
Proof.
  induction s as [|c s (pre & Hs & Hpre)]; simpl.
  - exists []. now split.
  - destruct (trimmable c) eqn:Hc.
    + exists (c :: pre). simpl. rewrite Hc, Hpre. split; [congruence | reflexivity].
    + exists []. now split.
Qed.

Lemma trimStart_clean (s : jsstring) : clean_front (trimStart s).
Proof.
  induction s as [|c s IH]; simpl; [exact I|].
  destruct (trimmable c) eqn:Hc; [exact IH | exact Hc].
Qed.

Lemma trimStart_snoc (s : jsstring) (c : N) :
  trimmable c = false -> trimStart (s ++ [c]) = trimStart s ++ [c].
Proof.
  intros Hc. induction s as [|d s IH]; simpl.
  - now rewrite Hc.
  - destruct (trimmable d); [exact IH | reflexivity].
Qed.

Lemma forallb_rev (f : N -> bool) (l : list N) :
  forallb f l = true -> forallb f (rev l) = true.
Proof.
  rewrite !forallb_forall. intros H x Hx. apply H. now apply in_rev.
Qed.

Lemma trimEnd_split (s : jsstring) :
  exists post, s = trimEnd s ++ post /\ forallb trimmable post = true.
Proof.
  destruct (trimStart_split (rev s)) as (pre & Hs & Hpre).
  exists (rev pre). split.
  - unfold trimEnd. rewrite <- rev_app_distr, <- Hs. now rewrite rev_involutive.
  - now apply forallb_rev.
Qed.

Lemma trimEnd_clean_back (s : jsstring) : clean_front (rev (trimEnd s)).
Proof. unfold trimEnd. rewrite rev_involutive. apply trimStart_clean. Qed.

Lemma trimEnd_cons (c : N) (s : jsstring) :
  trimmable c = false -> trimEnd (c :: s) = c :: trimEnd s.
Proof.
  intros Hc. unfold trimEnd. simpl rev at 2.
  rewrite trimStart_snoc by exact Hc.
  now rewrite rev_app_distr.
Qed.

Lemma trimEnd_clean_front (s : jsstring) : clean_front s -> clean_front (trimEnd s).
Proof.
  destruct s as [|c s]; simpl; intros H.
  - exact I.
  - rewrite trimEnd_cons by exact H. exact H.
Qed.

(** [s.trim()] is [s] without a run of white space and line terminators at
    each end, and has none left at either end: nothing inside is altered. *)
Lemma trim_spec (s : jsstring) :
  (exists pre post, s = pre ++ trim s ++ post
     /\ forallb trimmable pre = true /\ forallb trimmable post = true)
  /\ clean_ends (trim s).
Proof.
  unfold trim. split.
  - destruct (trimStart_split s) as (pre & Hs & Hpre).
    destruct (trimEnd_split (trimStart s)) as (post & Ht & Hpost).
    exists pre, post. repeat split; try assumption.
    now rewrite <- Ht.
  - split.
    + apply trimEnd_clean_front, trimStart_clean.
    + apply trimEnd_clean_back.
Qed.

Lemma trim_clean (s : jsstring) : clean_ends s -> trim s = s.
Proof.
  intros [Hf Hb]. unfold trim.
  assert (Hs : trimStart s = s).
  { destruct s as [|c s]; simpl in *; [reflexivity | now rewrite Hf]. }
  rewrite Hs. unfold trimEnd.
  assert (Hr : trimStart (rev s) = rev s).
  { destruct (rev s) as [|c r]; simpl in *; [reflexivity | now rewrite Hb]. }
  rewrite Hr. apply rev_involutive.
Qed.

(** ** [replace('+', '')] *)

Lemma replace_plus_nil : replace [plus_sign] [] [] = [].
Proof. reflexivity. Qed.

Lemma replace_plus_cons (c : N) (s : jsstring) :
  replace [plus_sign] [] (c :: s) = if (plus_sign =? c)%N then s else c :: replace [plus_sign] [] s.
Proof. cbn [replace strip_prefix]. destruct (plus_sign =? c)%N; reflexivity. Qed.

(** Without a ['+'] the string is unchanged. *)
Lemma replace_plus_absent (s : jsstring) :
  ~ In plus_sign s -> replace [plus_sign] [] s = s.
Proof.
  induction s as [|c s IH]; intros H; [reflexivity|].
  rewrite replace_plus_cons.
  destruct (plus_sign =? c)%N eqn:E.
  - apply N.eqb_eq in E. exfalso. apply H. now left.
  - f_equal. apply IH. intros Hin. apply H. now right.
Qed.

(** The first ['+'] is removed, wherever it stands. *)
Lemma replace_plus_first (pre post : jsstring) :
  ~ In plus_sign pre -> replace [plus_sign] [] (pre ++ plus_sign :: post) = pre ++ post.
Proof.
  induction pre as [|c pre IH]; intros H.
  - simpl app. rewrite replace_plus_cons. now rewrite N.eqb_refl.
  - simpl app. rewrite replace_plus_cons.
    destruct (plus_sign =? c)%N eqn:E.
    + apply N.eqb_eq in E. exfalso. apply H. now left.
    + f_equal. apply IH. intros Hin. apply H. now right.
Qed.

Lemma first_plus (s : jsstring) :
  In plus_sign s -> exists pre post, s = pre ++ plus_sign :: post /\ ~ In plus_sign pre.
Proof.
  induction s as [|c s IH]; intros H; [destruct H|].
  destruct (N.eq_dec plus_sign c) as [<-|Hne].
  - exists [], s. split; [reflexivity | intros []].
  - destruct H as [H|H]; [congruence|].
    destruct (IH H) as (pre & post & -> & Hpre).
    exists (c :: pre), post. split; [reflexivity|].
    intros [Hc|Hin]; [congruence | now apply Hpre].
Qed.

(** With a ['+'] the result is one code unit shorter, hence another string. *)
Lemma replace_plus_present (s : jsstring) :
  In plus_sign s -> S (List.length (replace [plus_sign] [] s)) = List.length s.
Proof.
  intros H. destruct (first_plus s H) as (pre & post & -> & Hpre).
  rewrite replace_plus_first by exact Hpre.
  rewrite !length_app. simpl. lia.
Qed.

End StringFacts.

(* ================================================================== *)
(** * Runs of the service methods                                      *)
(* ================================================================== *)

Import JS Runtime Observe.

Ltac unfold_observations_goal :=
  unfold quiet, acknowledged, responses, generateReply_calls, sendTextMessage_calls,
    generation_requests, send_requests; cbn [flat_map app].

Ltac unfold_run :=
  cbv beta iota zeta delta
    [run outcome trace bind ret throw try_catch attempt await ask request emit
     console_log console_error called interpolate Index.res_status_send fst snd].

(** Rewrite with a lemma about [run] under [outcome] and [trace]. *)
Ltac rewrite_run H :=
  let E := fresh "E" in
  pose proof H as E; unfold run in E; unfold run, outcome, trace;
  rewrite E; clear E; cbn [fst snd]; unfold_observations_goal.

Ltac unfold_observations :=
  unfold quiet, acknowledged, responses, generateReply_calls, sendTextMessage_calls,
    generation_requests, send_requests in *.

Ltac observe :=
  unfold_observations; rewrite ?flat_map_app; cbn [flat_map app].

(** Membership of an event in a trace built from pieces. *)
Ltac find_event :=
  repeat (cbn [In app]; rewrite ?in_app_iff); intuition auto.

Lemma strict_equals_text (v : JSValue) :
  strict_equals_string v (js "text") = true <-> v = JString (js "text").
Proof.
  split.
  - destruct v; simpl; try discriminate. intros H. apply string_eqb_eq in H. now subst.
  - intros ->. reflexivity.
Qed.

Section GenerateReply.
Variables (service : LLMService.t) (userMessage : JSValue) (env : Env).

Let entry : Event := Called (generateReply_called userMessage).
Let asked : Event := GenerateContent (generation_request service userMessage).

(** A rejected readiness promise is raised again by [await this.isReady]. *)
Lemma generateReply_rejected (e : JSError) :
  LLMService.isReady service = Throw e ->
  run (LLMService.generateReply service userMessage) env = (Throw e, [entry]).
Proof.
  intros H. unfold LLMService.generateReply. unfold_run. now rewrite H.
Qed.

(** The readiness guard: the promise resolved and no client is stored. *)
Lemma generateReply_guard :
  LLMService.isReady service = Normal tt -> LLMService.ai service = None ->
  run (LLMService.generateReply service userMessage) env
  = (Throw LLMService.client_not_ready, [entry]).
Proof.
  intros H1 H2. unfold LLMService.generateReply. unfold_run. now rewrite H1, H2.
Qed.

Section Ready.
Variable client : AIClient.
Hypothesis resolved : LLMService.isReady service = Normal tt.
Hypothesis stored : LLMService.ai service = Some client.

Lemma generateReply_unprintable :
  stringifies userMessage = false ->
  run (LLMService.generateReply service userMessage) env
  = (Throw (TypeError (js "Cannot convert object to primitive value")), [entry]).
Proof.
  intros H. unfold LLMService.generateReply. unfold_run.
  now rewrite resolved, stored, H.
Qed.

Hypothesis printable : stringifies userMessage = true.

Lemma generateReply_backend_throws (e : JSError) :
  models_generateContent env (generation_request service userMessage) = Throw e ->
  run (LLMService.generateReply service userMessage) env
  = (Normal LLMService.fallback_reply,
     [entry; Console log (LlmGenerating userMessage); asked;
      Console error (LlmGeminiError (error_message e))]).
Proof.
  intros H. unfold LLMService.generateReply. unfold_run.
  rewrite resolved, stored, printable.
  fold (generation_request service userMessage). now rewrite H.
Qed.

Lemma generateReply_no_text :
  models_generateContent env (generation_request service userMessage)
  = Normal {| response_text := None |} ->
  run (LLMService.generateReply service userMessage) env
  = (Normal LLMService.fallback_reply,
     [entry; Console log (LlmGenerating userMessage); asked;
      Console error (LlmGeminiError (js "Cannot read properties of undefined (reading 'trim')"))]).
Proof.
  intros H. unfold LLMService.generateReply. unfold_run.
  rewrite resolved, stored, printable.
  fold (generation_request service userMessage). now rewrite H.
Qed.

Lemma generateReply_success (s : jsstring) :
  models_generateContent env (generation_request service userMessage)
  = Normal {| response_text := Some s |} ->
  run (LLMService.generateReply service userMessage) env
  = (Normal (trim s),
     [entry; Console log (LlmGenerating userMessage); asked; Console log LlmReplyGenerated]).
Proof.
  intros H. unfold LLMService.generateReply. unfold_run.
  rewrite resolved, stored, printable.
  fold (generation_request service userMessage). now rewrite H.
Qed.

End Ready.

(** Whatever happens, the trace starts with the entry, holds no other method
    entry, no response and no send, and at most the one generation request. *)
Lemma generateReply_shape :
  exists t,
    trace (LLMService.generateReply service userMessage) env = entry :: t
    /\ generateReply_calls t = [] /\ sendTextMessage_calls t = []
    /\ responses t = [] /\ send_requests t = []
    /\ (generation_requests t = []
        \/ generation_requests t = [generation_request service userMessage]).
Proof.
  unfold LLMService.generateReply, LLMService.text_trim. unfold_run.
  destruct (LLMService.isReady service); [|cbn; eauto 10].
  destruct (LLMService.ai service); [|cbn; eauto 10].
  destruct (stringifies userMessage); [|cbn; eauto 10].
  destruct (models_generateContent env _) as [[[s|]]|e]; cbn; eauto 10.
Qed.

(** A generation request that the back end rejects ends in the fallback. *)
Lemma generateReply_falls_back (p : GenerateContentParameters) (e : JSError) :
  In p (generation_requests (trace (LLMService.generateReply service userMessage) env)) ->
  models_generateContent env p = Throw e ->
  outcome (LLMService.generateReply service userMessage) env
  = Normal LLMService.fallback_reply.
Proof.
  intros Hin Hp. revert Hin.
  destruct (LLMService.isReady service) as [[]|e0] eqn:Hr.
  2:{ rewrite_run (generateReply_rejected Hr). intros []. }
  destruct (LLMService.ai service) as [client|] eqn:Ha.
  2:{ rewrite_run (generateReply_guard Hr Ha). intros []. }
  destruct (stringifies userMessage) eqn:Hs.
  2:{ rewrite_run (generateReply_unprintable Hr Ha Hs). intros []. }
  destruct (models_generateContent env (generation_request service userMessage))
    as [[[s|]]|e'] eqn:Hb.
  - rewrite_run (generateReply_success Hr Ha Hs Hb). intros [<-|[]]. congruence.
  - rewrite_run (generateReply_no_text Hr Ha Hs Hb). reflexivity.
  - rewrite_run (generateReply_backend_throws Hr Ha Hs Hb). reflexivity.
Qed.

End GenerateReply.

Section SendTextMessage.
Variables (service : WhatsAppService.t) (recipient : JSValue) (body_text : jsstring).
Variable env : Env.

(** The object that [sendTextMessage] gives to the SDK. *)
Let outbound : MessageRequest :=
  {| to := recipient;
     from := replace (js "+") (js "") (WhatsAppService.vonageWhatsAppNumber service);
     channel := js "whatsapp";
     messageType := js "text";
     text := Some body_text;
     template := None |}.

Let entry : Event := Called (sendTextMessage_called recipient body_text).

Lemma sendTextMessage_accepted (response : MessageResponse) :
  messages_send env outbound = Normal response ->
  run (WhatsAppService.sendTextMessage service recipient body_text) env
  = (Normal response,
     [entry; MessagesSend outbound; Console log (WaMessageSent (message_uuid response))]).
Proof.
  intros H. unfold WhatsAppService.sendTextMessage. unfold_run.
  fold outbound. now rewrite H.
Qed.

Lemma sendTextMessage_refused (e : JSError) :
  messages_send env outbound = Throw e ->
  run (WhatsAppService.sendTextMessage service recipient body_text) env
  = (Throw (Error (js "Failed to send WhatsApp message: " ++ error_message e)),
     [entry; MessagesSend outbound; Console error (WaErrorSending e)]).
Proof.
  intros H. unfold WhatsAppService.sendTextMessage. unfold_run.
  fold outbound. now rewrite H.
Qed.

(** Whatever happens: one entry, one request to the SDK, nothing else that
    is observed here. *)
Lemma sendTextMessage_shape :
  exists t,
    trace (WhatsAppService.sendTextMessage service recipient body_text) env
    = entry :: MessagesSend outbound :: t
    /\ generateReply_calls t = [] /\ sendTextMessage_calls t = []
    /\ responses t = [] /\ send_requests t = [] /\ generation_requests t = [].
Proof.
  destruct (messages_send env outbound) as [response|e] eqn:H.
  - rewrite_run (sendTextMessage_accepted H). eauto 10.
  - rewrite_run (sendTextMessage_refused H). eauto 10.
Qed.

Lemma sendTextMessage_request :
  send_requests (trace (WhatsAppService.sendTextMessage service recipient body_text) env)
  = [outbound].
Proof.
  destruct sendTextMessage_shape as (t & -> & _ & _ & _ & Hs & _).
  observe. now rewrite Hs.
Qed.

End SendTextMessage.

(* ================================================================== *)
(** * Runs of the webhook handler                                      *)
(* ================================================================== *)

Section Inbound.
Variables (whatsAppService : WhatsAppService.t) (llmService : LLMService.t).
Variables (body : jsstring) (env : Env).

Let handler : M unit := Index.vonage_inbound whatsAppService llmService body.
Let hit : Event := Console log WebhookHit.
Let valid : Event := Console log ConnectionValid.
Let ack : Event := Respond 200 (js "Message processed successfully.").
Let unprintable : JSError := TypeError (js "Cannot convert object to primitive value").

Lemma inbound_parse_failure (e : JSError) :
  JSON_parse env body = Throw e ->
  run handler env
  = (Normal tt, [hit; Console error ParseFailed; Respond 400 (js "Invalid JSON payload.")]).
Proof.
  intros H. unfold handler, Index.vonage_inbound. unfold_run. now rewrite H.
Qed.

(** [message.from] on [null]: the handler throws before its [try]. *)
Lemma inbound_null :
  JSON_parse env body = Normal JNull ->
  run handler env
  = (Throw (TypeError (js "Cannot read properties of null (reading 'from')")), [hit; valid]).
Proof.
  intros H. unfold handler, Index.vonage_inbound. unfold_run. now rewrite H.
Qed.

Section TextMessage.
Variables message sender textContent : JSValue.
Hypothesis parsed : JSON_parse env body = Normal message.
Hypothesis is_text : text_message message sender textContent.

(** The first console line of the text branch interpolates [from]: when
    that conversion throws, the handler throws before its [try]. *)
Lemma inbound_unprintable_sender :
  stringifies sender = false ->
  run handler env = (Throw unprintable, [hit; valid]).
Proof.
  destruct is_text as (Hf & Hm & Ht & Hb). intros Hs.
  unfold handler, Index.vonage_inbound. unfold_run.
  rewrite parsed, Hf, Hm, Ht, Hb, Hs.
  replace (strict_equals_string (JString (js "text")) (js "text")) with true by reflexivity.
  reflexivity.
Qed.

Hypothesis sender_printable : stringifies sender = true.
Hypothesis text_printable : stringifies textContent = true.

(** What the [try] block and its [catch] leave in the trace. *)
Let pipeline : list Event :=
  match run (LLMService.generateReply llmService textContent) env with
  | (Throw e, t1) => t1 ++ [Console error (CriticalFailure (error_message e))]
  | (Normal llmReply, t1) =>
      match run (WhatsAppService.sendTextMessage whatsAppService sender llmReply) env with
      | (Throw e, t2) => t1 ++ t2 ++ [Console error (CriticalFailure (error_message e))]
      | (Normal _, t2) => t1 ++ t2 ++ [Console log (ReplySent llmReply sender)]
      end
  end.

Lemma inbound_text_run :
  run handler env
  = (Normal tt, [hit; valid; Console log (ReceivedText sender textContent)] ++ pipeline ++ [ack]).
Proof.
  destruct is_text as (Hf & Hm & Ht & Hb).
  unfold pipeline, handler, Index.vonage_inbound. unfold_run.
  rewrite parsed, Hf, Hm, Ht, Hb, sender_printable, text_printable.
  replace (strict_equals_string (JString (js "text")) (js "text")) with true by reflexivity.
  cbn [andb].
  destruct (LLMService.generateReply llmService textContent env) as [[llmReply|e] t1].
  - destruct (WhatsAppService.sendTextMessage whatsAppService sender llmReply env)
      as [[response|e] t2]; cbn [app]; rewrite <- ?app_assoc; reflexivity.
  - cbn [app]. rewrite <- ?app_assoc. reflexivity.
Qed.

(** The same run, read through the observations. *)
Lemma inbound_text_observed :
  let t := trace handler env in
  outcome handler env = Normal tt
  /\ acknowledged t
  /\ generateReply_calls t = [textContent]
  /\ generation_requests t
     = generation_requests (trace (LLMService.generateReply llmService textContent) env)
  /\ match outcome (LLMService.generateReply llmService textContent) env with
     | Normal llmReply =>
         let send := WhatsAppService.sendTextMessage whatsAppService sender llmReply in
         sendTextMessage_calls t = [(sender, llmReply)]
         /\ send_requests t = send_requests (trace send env)
         /\ forall e, outcome send env = Throw e ->
                      In (Console error (CriticalFailure (error_message e))) t
     | Throw e =>
         sendTextMessage_calls t = [] /\ send_requests t = []
         /\ In (Console error (CriticalFailure (error_message e))) t
     end.
Proof.
  pose proof inbound_text_run as Hrun. unfold run in Hrun.
  unfold outcome, trace. rewrite Hrun. cbn [fst snd]. clear Hrun. unfold pipeline.
  destruct (generateReply_shape llmService textContent env)
    as (t1 & Ht1 & Hg1 & Hs1 & Hr1 & Hm1 & _).
  unfold trace, run in *.
  destruct (LLMService.generateReply llmService textContent env) as [[llmReply|e] t1'];
    cbn [fst snd] in *; subst t1'.
  - destruct (sendTextMessage_shape whatsAppService sender llmReply env)
      as (t2 & Ht2 & Hg2 & Hs2 & Hr2 & Hm2 & Hq2).
    unfold trace in Ht2.
    destruct (WhatsAppService.sendTextMessage whatsAppService sender llmReply env)
      as [[response|e] t2'] eqn:Hsend; cbn [fst snd] in *; subst t2'.
    + observe. unfold_observations.
      rewrite Hg1, Hs1, Hr1, Hm1, Hg2, Hs2, Hr2, Hm2, Hq2. cbn [app].
      rewrite ?app_nil_r. repeat split. intros e He. discriminate He.
    + observe. unfold_observations.
      rewrite Hg1, Hs1, Hr1, Hm1, Hg2, Hs2, Hr2, Hm2, Hq2. cbn [app].
      rewrite ?app_nil_r. repeat split. intros e' He. injection He as <-.
      find_event.
  - observe. unfold_observations.
    rewrite Hg1, Hs1, Hr1, Hm1. cbn [app]. rewrite ?app_nil_r. repeat split.
    find_event.
Qed.

End TextMessage.

(** Outside the text branch, and when the text branch throws on its first
    console line, no service method and no back end is called. *)
Lemma inbound_pipeline_or_quiet :
  (exists message sender textContent,
      JSON_parse env body = Normal message
      /\ text_message message sender textContent
      /\ stringifies sender = true /\ stringifies textContent = true)
  \/ quiet (trace handler env).
Proof.
  unfold handler, Index.vonage_inbound. unfold_run.
  destruct (JSON_parse env body) as [message|e] eqn:Hparse.
  2:{ right. cbn. repeat split. }
  destruct (Get message (js "from")) as [sender|e] eqn:Hfrom.
  2:{ right. cbn. repeat split. }
  destruct (Get message (js "message_type")) as [mt|e] eqn:Hmt.
  2:{ right. cbn. repeat split. }
  destruct (Get message (js "text")) as [tc|e] eqn:Htext.
  2:{ right. cbn. repeat split. }
  destruct (strict_equals_string mt (js "text") && ToBoolean tc) eqn:Hbranch.
  - apply andb_true_iff in Hbranch as [Hs Htc]. apply strict_equals_text in Hs. subst mt.
    destruct (stringifies sender) eqn:Hp1; [|right; cbn; repeat split].
    destruct (stringifies tc) eqn:Hp2; [|right; cbn; repeat split].
    left. exists message, sender, tc. unfold text_message. auto 10.
  - right.
    destruct (ToBoolean mt).
    + destruct (stringifies mt); [|cbn; repeat split].
      destruct (stringifies sender); cbn; repeat split.
    + destruct (Get message (js "status")) as [status|e]; [|cbn; repeat split].
      destruct (ToBoolean status); [|cbn; repeat split].
      destruct (stringifies status); [|cbn; repeat split].
      destruct (Get message (js "messageId")) as [messageId|e]; [|cbn; repeat split].
      destruct (stringifies messageId); cbn; repeat split.
Qed.

(** X3.  How a run of the handler can end: it returns after the response
    400 (the body did not parse) or after the response 200 (it parsed), or it
    throws, without a response and without a call, because [message.from]
    cannot be read or a logged value does not convert to a string. *)
Lemma inbound_outcomes :
  match outcome handler env with
  | Normal _ =>
      (responses (trace handler env) = [(400%N, js "Invalid JSON payload.")]
       /\ exists e, JSON_parse env body = Throw e)
      \/ (acknowledged (trace handler env)
          /\ exists message, JSON_parse env body = Normal message)
  | Throw e =>
      responses (trace handler env) = [] /\ quiet (trace handler env)
      /\ exists message,
           JSON_parse env body = Normal message
           /\ (Get message (js "from") = Throw e \/ e = unprintable)
  end.
Proof.
  destruct (JSON_parse env body) as [message|e] eqn:Hparse.
  2:{ rewrite_run (inbound_parse_failure Hparse). left. eauto. }
  destruct (Get message (js "from")) as [sender|e] eqn:Hfrom.
  2:{ unfold handler, Index.vonage_inbound. unfold_run. rewrite Hparse, Hfrom.
      cbn. repeat split. eauto. }
  assert (Hmt : exists mt, Get message (js "message_type") = Normal mt).
  { destruct message; try discriminate; cbn; eauto. }
  assert (Htext : exists tc, Get message (js "text") = Normal tc).
  { destruct message; try discriminate; cbn; eauto. }
  assert (Hstatus : exists st, Get message (js "status") = Normal st).
  { destruct message; try discriminate; cbn; eauto. }
  assert (Hid : exists mi, Get message (js "messageId") = Normal mi).
  { destruct message; try discriminate; cbn; eauto. }
  destruct Hmt as (mt & Hmt), Htext as (tc & Htext), Hstatus as (st & Hstatus),
    Hid as (mi & Hid).
  destruct (strict_equals_string mt (js "text") && ToBoolean tc) eqn:Hbranch.
  - apply andb_true_iff in Hbranch as [Hs Htc]. apply strict_equals_text in Hs. subst mt.
    assert (Hmsg : text_message message sender tc) by (unfold text_message; auto).
    destruct (stringifies sender) eqn:Hp1.
    + destruct (stringifies tc) eqn:Hp2.
      * destruct (inbound_text_observed Hparse Hmsg Hp1 Hp2) as (Ho & Ha & _).
        fold handler in Ho, Ha. rewrite Ho. right. eauto.
      * unfold handler, Index.vonage_inbound. unfold_run.
        rewrite Hparse, Hfrom, Hmt, Htext, Htc, Hp1, Hp2.
        replace (strict_equals_string (JString (js "text")) (js "text")) with true
          by reflexivity.
        cbn. repeat split. eauto.
    + rewrite_run (inbound_unprintable_sender Hparse Hmsg Hp1).
      repeat split. eauto.
  - unfold handler, Index.vonage_inbound. unfold_run.
    rewrite Hparse, Hfrom, Hmt, Htext, Hbranch, Hstatus, Hid.
    destruct (ToBoolean mt).
    + destruct (stringifies mt); [|cbn; repeat split; eauto].
      destruct (stringifies sender); cbn; [right|]; repeat split; eauto.
    + destruct (ToBoolean st); [|cbn; right; repeat split; eauto].
      destruct (stringifies st); [|cbn; repeat split; eauto].
      destruct (stringifies mi); cbn; [right|]; repeat split; eauto.
Qed.

(** Every branch other than the text branch, when none of its steps throws. *)
Lemma inbound_other_acknowledged (message sender messageType textContent : JSValue) :
  JSON_parse env body = Normal message ->
  Get message (js "from") = Normal sender ->
  Get message (js "message_type") = Normal messageType ->
  Get message (js "text") = Normal textContent ->
  strict_equals_string messageType (js "text") && ToBoolean textContent = false ->
  stringifies messageType = true -> stringifies sender = true ->
  (forall v, Get message (js "status") = Normal v -> stringifies v = true) ->
  (forall v, Get message (js "messageId") = Normal v -> stringifies v = true) ->
  outcome handler env = Normal tt
  /\ acknowledged (trace handler env) /\ quiet (trace handler env).
Proof.
  intros Hparse Hf Hm Ht Hbranch Hp1 Hp2 Hp3 Hp4.
  unfold handler, Index.vonage_inbound. unfold_run.
  rewrite Hparse, Hf, Hm, Ht, Hbranch.
  destruct (ToBoolean messageType).
  - rewrite Hp1, Hp2. cbn. repeat split.
  - assert (Hs : exists status, Get message (js "status") = Normal status).
    { destruct message; try discriminate; cbn; eauto. }
    assert (Hi : exists messageId, Get message (js "messageId") = Normal messageId).
    { destruct message; try discriminate; cbn; eauto. }
    destruct Hs as (status & Hs), Hi as (messageId & Hi).
    rewrite Hs, Hi. rewrite (Hp3 _ Hs), (Hp4 _ Hi).
    destruct (ToBoolean status); cbn; repeat split.
Qed.

End Inbound.

Section SendTemplateMessage.
Variables (service : WhatsAppService.t) (recipient : JSValue).
Variables (templateName templateLanguage : jsstring).
Variable bodyParameters : option (list WhatsAppService.BodyParameter).
Variable mediaUrl : option jsstring.
Variable env : Env.

Let header_part : list Component :=
  match mediaUrl with
  | Some (c :: url) =>
      [ {| component_type := header; parameters := [ImageParameter (c :: url)] |} ]
  | Some [] | None => []
  end.

Let body_part : list Component :=
  match bodyParameters with
  | Some (p :: l) =>
      [ {| component_type := body;
           parameters := map (fun q => TextParameter (WhatsAppService.value q)) (p :: l) |} ]
  | Some [] | None => []
  end.

(** The one request of a template send. *)
Lemma sendTemplateMessage_request :
  send_requests
    (trace (WhatsAppService.sendTemplateMessage service recipient templateName
              templateLanguage bodyParameters mediaUrl) env)
  = [ {| to := recipient;
         from := WhatsAppService.vonageWhatsAppNumber service;
         channel := js "whatsapp";
         messageType := js "template";
         text := None;
         template := Some {| name := templateName;
                             language_code := templateLanguage;
                             components := header_part ++ body_part |} |} ].
Proof.
  unfold header_part, body_part, WhatsAppService.sendTemplateMessage,
    WhatsAppService.given, WhatsAppService.non_empty.
  unfold_run.
  destruct mediaUrl as [[|c url]|], bodyParameters as [[|p l]|]; cbn [app];
    match goal with
    | |- context [messages_send env ?m] => destruct (messages_send env m)
    end; reflexivity.
Qed.

End SendTemplateMessage.

(** The start-up of [LLMService]: what the constructor stores follows the
    outcome of [_initializeClient]. *)
Lemma constructor_settles (loaded : JSValue) (prompt : jsstring) (env : Env)
    (service : LLMService.t) (t : list Event) :
  run (LLMService.constructor loaded prompt) env = (Normal service, t) ->
  match outcome (LLMService._initializeClient (js "gemini-2.5-flash")) env with
  | Normal client =>
      LLMService.ai service = Some client /\ LLMService.isReady service = Normal tt
  | Throw e =>
      LLMService.ai service = None /\ LLMService.isReady service = Throw e
  end.
Proof.
  unfold LLMService.constructor. unfold_run.
  destruct (LLMService.unset (GEMINI_API_KEY env)); [discriminate|].
  destruct (LLMService._initializeClient (js "gemini-2.5-flash") env) as [[client|e] t'];
    cbn [fst]; intros H; injection H as <- _; split; reflexivity.
Qed.

(** A failing import fails the initialization with the error of the import. *)
Lemma initialization_fails_with_import (this_model : jsstring) (env : Env) (e : JSError) :
  import_genai env = Throw e ->
  outcome (LLMService._initializeClient this_model) env = Throw e.
Proof.
  intros H. unfold LLMService._initializeClient. unfold_run. now rewrite H.
Qed.

Example healthy_start : Samples.started_llm Samples.healthy = Some Samples.ready_llm.
Proof. reflexivity. Qed.

Example broken_start : Samples.started_llm Samples.import_broken = Some Samples.failed_llm.
Proof. reflexivity. Qed.

Example parse_text_body :
  JSON_parse Samples.healthy Samples.text_body = Normal Samples.text_payload.
Proof. reflexivity. Qed.

Example healthy_round_trip :
  let t := trace (Index.vonage_inbound Samples.whatsapp Samples.ready_llm Samples.text_body)
                 Samples.healthy in
  generateReply_calls t = [JString (js "What is the VIP price?")]
  /\ sendTextMessage_calls t
     = [(JString (js "15551234567"), js "The VIP Luxury Price is 235 euro.")]
  /\ map from (send_requests t) = [js "14157386102"]
  /\ acknowledged t.
Proof. vm_compute. repeat split. Qed.

(** The binary64 of the literal [0.6] lies within half a unit in the last
    place of 6/10, and is a canonical binary64 significand and exponent. *)
Lemma temperature_is_0_6 :
  SpecFloat.bounded 53 1024 5404319552844595 (-53) = true
  /\ exists n d,
       float_value LLMService.temperature_0_6 = Some (n, d)
       /\ (0 < d)%Z /\ (Z.abs (10 * n - 6 * d) * 2 ^ 54 <= 10 * d)%Z.
Proof.
  split; [reflexivity|].
  exists 5404319552844595%Z, (2 ^ 53)%Z. split; [reflexivity|].
  split; [reflexivity|]. vm_compute. discriminate.
Qed.

(* ================================================================== *)
(** * The claims                                                       *)
(* ================================================================== *)

Section Claims.
Variables (whatsAppService : WhatsAppService.t) (llmService : LLMService.t).
Variables (body : jsstring) (env : Env).

Let handler : M unit := Index.vonage_inbound whatsAppService llmService body.

(** X1: the reach of C1.  When [from] converts to a string, a parsed payload
    with [message_type] equal to ["text"] and a non-empty [text] makes the
    handler call [generateReply] exactly once, with that text; when that call
    returns a string (the model's text or the fallback) the handler calls
    [sendTextMessage] exactly once, with the sender and that string; when it
    throws, [sendTextMessage] is not called; in every case the handler
    responds 200 and returns. *)
Lemma text_message_pipeline (message sender : JSValue) (s : jsstring) :
  JSON_parse env body = Normal message ->
  Get message (js "from") = Normal sender ->
  Get message (js "message_type") = Normal (JString (js "text")) ->
  Get message (js "text") = Normal (JString s) ->
  s <> [] ->
  stringifies sender = true ->
  let reply := outcome (LLMService.generateReply llmService (JString s)) env in
  outcome handler env = Normal tt
  /\ generateReply_calls (trace handler env) = [JString s]
  /\ (forall llmReply, reply = Normal llmReply ->
        sendTextMessage_calls (trace handler env) = [(sender, llmReply)])
  /\ (forall e, reply = Throw e -> sendTextMessage_calls (trace handler env) = [])
  /\ responses (trace handler env) = [(200%N, js "Message processed successfully.")].
Proof.
  intros Hparse Hf Hm Ht Hs Hp reply.
  assert (Htext : text_message message sender (JString s)).
  { unfold text_message. repeat split; try assumption. destruct s; [congruence | reflexivity]. }
  destruct (inbound_text_observed whatsAppService llmService body env Hparse Htext Hp eq_refl)
    as (H1 & H2 & H3 & _ & H5).
  fold handler in H1, H2, H3, H5. fold reply in H5.
  repeat split; try assumption.
  - intros llmReply E. rewrite E in H5. apply H5.
  - intros e E. rewrite E in H5. apply H5.
Qed.

(** C1.  The claim fails on a payload whose [from] is an object with an own
    [toString] property: the first console line of the text branch
    interpolates [from] before the [try] block, the conversion throws, and the
    handler ends without a call to [generateReply] and without a response. *)
Theorem C1_unprintable_sender_is_not_answered (message sender : JSValue) (s : jsstring) :
  JSON_parse env body = Normal message ->
  Get message (js "from") = Normal sender ->
  Get message (js "message_type") = Normal (JString (js "text")) ->
  Get message (js "text") = Normal (JString s) ->
  s <> [] ->
  stringifies sender = false ->
  outcome handler env = Throw (TypeError (js "Cannot convert object to primitive value"))
  /\ generateReply_calls (trace handler env) = []
  /\ sendTextMessage_calls (trace handler env) = []
  /\ responses (trace handler env) = [].
Proof.
  intros Hparse Hf Hm Ht Hs Hp.
  assert (Htext : text_message message sender (JString s)).
  { unfold text_message. repeat split; try assumption. destruct s; [congruence | reflexivity]. }
  unfold handler.
  rewrite_run (inbound_unprintable_sender whatsAppService llmService body env Hparse Htext Hp).
  repeat split.
Qed.

(** C2.  When the raw body fails to parse as JSON, the handler responds with
    status 400, returns, and calls neither service method nor back end. *)
Theorem C2_malformed_body_is_refused (e : JSError) :
  JSON_parse env body = Throw e ->
  outcome handler env = Normal tt
  /\ responses (trace handler env) = [(400%N, js "Invalid JSON payload.")]
  /\ generateReply_calls (trace handler env) = []
  /\ sendTextMessage_calls (trace handler env) = []
  /\ generation_requests (trace handler env) = []
  /\ send_requests (trace handler env) = [].
Proof.
  intros H. unfold handler.
  rewrite_run (inbound_parse_failure whatsAppService llmService body env H).
  repeat split.
Qed.

(** C3.  Whenever the generation request issued inside [generateReply] is
    rejected by the back end, [generateReply] returns the fixed apology
    string, which is not empty; and when this happens inside the handler, the
    one call of [sendTextMessage] and the one request given to the messaging
    SDK carry exactly that string. *)
Theorem C3_generation_error_becomes_the_apology
    (p : GenerateContentParameters) (e : JSError) :
  models_generateContent env p = Throw e ->
  (forall service userMessage,
      In p (generation_requests (trace (LLMService.generateReply service userMessage) env)) ->
      outcome (LLMService.generateReply service userMessage) env
      = Normal LLMService.fallback_reply)
  /\ LLMService.fallback_reply
     = js "Apologies, Sohan! I'm running into a core system error. Could you please rephrase your request or try a technical topic?"
  /\ LLMService.fallback_reply <> []
  /\ (In p (generation_requests (trace handler env)) ->
      exists sender m,
        sendTextMessage_calls (trace handler env) = [(sender, LLMService.fallback_reply)]
        /\ send_requests (trace handler env) = [m]
        /\ to m = sender
        /\ text m = Some LLMService.fallback_reply).
Proof.
  intros Hp. split; [|split; [|split]].
  - intros service userMessage Hin. exact (generateReply_falls_back _ _ _ _ Hin Hp).
  - reflexivity.
  - discriminate.
  - intros Hin.
    destruct (inbound_pipeline_or_quiet whatsAppService llmService body env)
      as [(message & sender & textContent & Hparse & Htext & Hp1 & Hp2) | Hq].
    + destruct (inbound_text_observed whatsAppService llmService body env
                  Hparse Htext Hp1 Hp2) as (_ & _ & _ & Hg & Hsend).
      fold handler in Hg, Hsend. rewrite Hg in Hin.
      rewrite (generateReply_falls_back _ _ _ _ Hin Hp) in Hsend.
      destruct Hsend as (Hc & Hr & _).
      rewrite sendTextMessage_request in Hr.
      eexists sender, _. split; [exact Hc|]. split; [exact Hr|]. split; reflexivity.
    + destruct Hq as (_ & _ & Hg & _). fold handler in Hg. rewrite Hg in Hin. destruct Hin.
Qed.

(** X2: the reach of C4.  A parsed
    payload that is not [null], whose [message_type] is not ["text"] or whose
    [text] is falsy, and whose logged fields convert to strings, leads to no
    call of a service method or back end and to the response 200. *)
Lemma other_message_is_acknowledged (message sender messageType textContent : JSValue) :
  JSON_parse env body = Normal message ->
  Get message (js "from") = Normal sender ->
  Get message (js "message_type") = Normal messageType ->
  Get message (js "text") = Normal textContent ->
  messageType <> JString (js "text") \/ ToBoolean textContent = false ->
  stringifies messageType = true -> stringifies sender = true ->
  (forall v, Get message (js "status") = Normal v -> stringifies v = true) ->
  (forall v, Get message (js "messageId") = Normal v -> stringifies v = true) ->
  outcome handler env = Normal tt
  /\ responses (trace handler env) = [(200%N, js "Message processed successfully.")]
  /\ generateReply_calls (trace handler env) = []
  /\ sendTextMessage_calls (trace handler env) = []
  /\ generation_requests (trace handler env) = []
  /\ send_requests (trace handler env) = [].
Proof.
  intros Hparse Hf Hm Ht Hother Hp1 Hp2 Hp3 Hp4.
  assert (Hbranch : strict_equals_string messageType (js "text") && ToBoolean textContent = false).
  { apply andb_false_iff. destruct Hother as [Hne|Hfalsy]; [left | now right].
    destruct (strict_equals_string messageType (js "text")) eqn:E; [|reflexivity].
    apply strict_equals_text in E. contradiction. }
  destruct (inbound_other_acknowledged whatsAppService llmService body env
              Hparse Hf Hm Ht Hbranch Hp1 Hp2 Hp3 Hp4) as (H1 & H2 & H3 & H4 & H5 & H6).
  repeat split; assumption.
Qed.

(** C4.  The claim fails on the payload [null]: it parses, it has no
    [message_type] and no [text], and reading [message.from] throws before
    any branch is taken, so the handler ends without a response. *)
Theorem C4_null_payload_is_not_answered :
  JSON_parse env body = Normal JNull ->
  outcome handler env
  = Throw (TypeError (js "Cannot read properties of null (reading 'from')"))
  /\ responses (trace handler env) = []
  /\ generateReply_calls (trace handler env) = []
  /\ sendTextMessage_calls (trace handler env) = [].
Proof.
  intros H. unfold handler.
  rewrite_run (inbound_null whatsAppService llmService body env H).
  repeat split.
Qed.

(** C8.  When the messaging SDK rejects the request of [sendTextMessage],
    the method throws an [Error] whose message is the fixed prefix followed by
    the message of the SDK's error; when this happens inside the handler, the
    error is caught there (its message is logged) and the handler still
    responds 200 and returns. *)
Theorem C8_send_failure_is_wrapped_and_absorbed (m : MessageRequest) (e : JSError) :
  messages_send env m = Throw e ->
  let wrapped := Error (js "Failed to send WhatsApp message: " ++ error_message e) in
  (forall service recipient body_text,
      In m (send_requests
              (trace (WhatsAppService.sendTextMessage service recipient body_text) env)) ->
      outcome (WhatsAppService.sendTextMessage service recipient body_text) env
      = Throw wrapped)
  /\ (In m (send_requests (trace handler env)) ->
      outcome handler env = Normal tt
      /\ responses (trace handler env) = [(200%N, js "Message processed successfully.")]
      /\ In (Console error (CriticalFailure (error_message wrapped))) (trace handler env)).
Proof.
  intros Hm wrapped.
  assert (Hsvc : forall service recipient body_text,
      In m (send_requests
              (trace (WhatsAppService.sendTextMessage service recipient body_text) env)) ->
      outcome (WhatsAppService.sendTextMessage service recipient body_text) env
      = Throw wrapped).
  { intros service recipient body_text. rewrite sendTextMessage_request.
    intros [<-|[]]. rewrite_run (sendTextMessage_refused _ _ _ _ Hm). reflexivity. }
  split; [exact Hsvc|].
  intros Hin.
  destruct (inbound_pipeline_or_quiet whatsAppService llmService body env)
    as [(message & sender & textContent & Hparse & Htext & Hp1 & Hp2) | Hq].
  - destruct (inbound_text_observed whatsAppService llmService body env
                Hparse Htext Hp1 Hp2) as (H1 & H2 & _ & _ & Hsend).
    fold handler in H1, H2, Hsend.
    destruct (outcome (LLMService.generateReply llmService textContent) env)
      as [llmReply|e'].
    + destruct Hsend as (_ & Hr & Hcaught). rewrite Hr in Hin.
      repeat split; try assumption. apply (Hcaught wrapped). now apply Hsvc.
    + destruct Hsend as (_ & Hr & _). rewrite Hr in Hin. destruct Hin.
  - destruct Hq as (_ & _ & _ & Hs). fold handler in Hs. rewrite Hs in Hin. destruct Hin.
Qed.

End Claims.

(** C5.  [sendTemplateMessage] gives the SDK one request whose template has
    a components list such that: with a non-empty [mediaUrl] its first element
    is a header component holding one image parameter with that URL; with
    [mediaUrl] omitted no element is a header component; with a non-empty
    [bodyParameters] its last element is a body component whose text
    parameters are the values of [bodyParameters], one for one and in the same
    order, and nothing but a header stands before it. *)
Theorem C5_template_components (service : WhatsAppService.t) (recipient : JSValue)
    (templateName templateLanguage : jsstring)
    (bodyParameters : option (list WhatsAppService.BodyParameter))
    (mediaUrl : option jsstring) (env : Env) :
  exists m tpl,
    send_requests
      (trace (WhatsAppService.sendTemplateMessage service recipient templateName
                templateLanguage bodyParameters mediaUrl) env) = [m]
    /\ template m = Some tpl
    /\ (forall url, mediaUrl = Some url -> url <> [] ->
          exists rest,
            components tpl
            = {| component_type := header; parameters := [ImageParameter url] |} :: rest)
    /\ (mediaUrl = None ->
          forall c, In c (components tpl) -> component_type c <> header)
    /\ (forall l, bodyParameters = Some l -> l <> [] ->
          exists front slots,
            components tpl = front ++ [ {| component_type := body; parameters := slots |} ]
            /\ (forall c, In c front -> component_type c = header)
            /\ slots = map (fun p => TextParameter (WhatsAppService.value p)) l
            /\ List.length slots = List.length l
            /\ forall i p, nth_error l i = Some p ->
                           nth_error slots i = Some (TextParameter (WhatsAppService.value p))).
Proof.
  eexists _, _. split; [apply sendTemplateMessage_request|].
  split; [reflexivity|]. cbn [components]. split; [|split].
  - intros url -> Hurl. destruct url as [|c url]; [congruence|]. eexists. reflexivity.
  - intros ->. cbn [app]. destruct bodyParameters as [[|p l]|]; cbn; intros c [].
    + subst c. discriminate.
    + destruct H.
  - intros l -> Hl. destruct l as [|p l]; [congruence|].
    eexists _, _. split; [reflexivity|]. split; [|split; [reflexivity|split]].
    + destruct mediaUrl as [[|c url]|]; cbn; intros x []; try contradiction.
      subst x. reflexivity.
    + apply length_map.
    + intros i q Hq. rewrite nth_error_map, Hq. reflexivity.
Qed.

(** C6.  With the client initialised, one invocation of [generateReply] on a
    user text issues exactly one generation request: its conversation content
    is the single user message, its configuration enables the
    search tool, passes the stored system prompt and sets the temperature to
    the binary64 of 0.6.  When the back end answers with a text, the result
    is that text with the white space and line terminators of both ends
    removed and nothing else changed. *)
Theorem C6_generateReply_request_and_reply (service : LLMService.t) (client : AIClient)
    (userText : jsstring) (env : Env) :
  LLMService.isReady service = Normal tt ->
  LLMService.ai service = Some client ->
  let call := LLMService.generateReply service (JString userText) in
  exists p,
    generation_requests (trace call env) = [p]
    /\ model p = LLMService.model service
    /\ contents p = [ {| role := js "user"; parts := [ {| part_text := JString userText |} ] |} ]
    /\ tools (config p) = [googleSearch]
    /\ systemInstruction (config p) = LLMService.systemPrompt service
    /\ (exists n d, float_value (temperature (config p)) = Some (n, d)
          /\ (0 < d)%Z /\ (Z.abs (10 * n - 6 * d) * 2 ^ 54 <= 10 * d)%Z)
    /\ forall s, models_generateContent env p = Normal {| response_text := Some s |} ->
         outcome call env = Normal (trim s)
         /\ (exists pre post, s = pre ++ trim s ++ post
               /\ forallb trimmable pre = true /\ forallb trimmable post = true)
         /\ clean_ends (trim s).
Proof.
  intros Hr Ha call. exists (generation_request service (JString userText)).
  split; [|repeat split; try apply temperature_is_0_6].
  - unfold call.
    destruct (models_generateContent env (generation_request service (JString userText)))
      as [[[s|]]|e] eqn:Hb.
    + rewrite_run (generateReply_success service (JString userText) env Hr Ha eq_refl Hb).
      reflexivity.
    + rewrite_run (generateReply_no_text service (JString userText) env Hr Ha eq_refl Hb).
      reflexivity.
    + rewrite_run (generateReply_backend_throws service (JString userText) env Hr Ha eq_refl Hb).
      reflexivity.
  - unfold call.
    rewrite_run (generateReply_success service (JString userText) env Hr Ha eq_refl H).
    reflexivity.
  - apply trim_spec.
  - apply trim_spec.
  - apply trim_spec.
Qed.

(** C7.  The claim fails on the error that is raised.  When
    [_initializeClient] failed with [e], the constructor leaves [ai] unset and
    [isReady] rejected with [e]; every later call of [generateReply] then
    throws [e] itself at [await this.isReady], before the readiness guard: it
    issues no generation request and does not return the apology, but the
    error is the "not ready" error of the guard only if [e] is. *)
Theorem C7_failed_initialization_is_rethrown (loaded : JSValue) (prompt : jsstring)
    (env0 : Env) (service : LLMService.t) (t0 : list Event) (e : JSError) :
  run (LLMService.constructor loaded prompt) env0 = (Normal service, t0) ->
  outcome (LLMService._initializeClient (js "gemini-2.5-flash")) env0 = Throw e ->
  LLMService.ai service = None
  /\ forall userMessage env,
       let call := LLMService.generateReply service userMessage in
       outcome call env = Throw e
       /\ (e <> LLMService.client_not_ready ->
           outcome call env <> Throw LLMService.client_not_ready)
       /\ outcome call env <> Normal LLMService.fallback_reply
       /\ generation_requests (trace call env) = [].
Proof.
  intros Hc Hi. apply constructor_settles in Hc. rewrite Hi in Hc.
  destruct Hc as [Ha Hr]. split; [exact Ha|].
  intros userMessage env call. unfold call.
  rewrite_run (generateReply_rejected service userMessage env Hr).
  repeat split; congruence.
Qed.

(** C9, as the code has it.  Every call of [sendTextMessage] gives the SDK one
    request whose [from] is the configured sender identity with its first
    ['+'] removed, wherever it stands: a leading ['+'] is stripped, an
    identity without ['+'] is sent as it is, and a ['+'] that is not in front
    is removed as well. *)
Theorem C9_sender_loses_its_first_plus (service : WhatsAppService.t) (recipient : JSValue)
    (body_text : jsstring) (env : Env) :
  let s := WhatsAppService.vonageWhatsAppNumber service in
  exists m,
    send_requests (trace (WhatsAppService.sendTextMessage service recipient body_text) env)
    = [m]
    /\ from m = replace (js "+") (js "") s
    /\ (forall rest, s = plus_sign :: rest -> from m = rest /\ from m = strip_leading_plus s)
    /\ (~ In plus_sign s -> from m = s /\ from m = strip_leading_plus s)
    /\ (forall pre post, s = pre ++ plus_sign :: post -> ~ In plus_sign pre ->
          from m = pre ++ post).
Proof.
  intros s. eexists. split; [apply sendTextMessage_request|]. cbn [from]. fold s.
  change (js "+") with [plus_sign]. change (js "") with (@nil N).
  split; [reflexivity|]. split; [|split].
  - intros rest ->. rewrite replace_plus_cons, N.eqb_refl. split; reflexivity.
  - intros Hs. rewrite replace_plus_absent by exact Hs. split; [reflexivity|].
    destruct s as [|c r]; [reflexivity|]. cbn.
    destruct (c =? plus_sign)%N eqn:E; [|reflexivity].
    apply N.eqb_eq in E. exfalso. apply Hs. now left.
  - intros pre post -> Hpre. now apply replace_plus_first.
Qed.

(** C9, as the claim has it, fails for the sender identity [00+14157386102]:
    the request is sent from [0014157386102], while stripping a leading ['+']
    leaves the identity as it is. *)
Lemma C9_inner_plus_is_removed :
  let service := Samples.whatsapp_inner_plus in
  let sent := send_requests
                (trace (WhatsAppService.sendTextMessage service
                          (JString (js "15551234567")) (js "hi")) Samples.healthy) in
  map from sent = [js "0014157386102"]
  /\ strip_leading_plus (WhatsAppService.vonageWhatsAppNumber service) = js "00+14157386102"
  /\ map from sent <> [strip_leading_plus (WhatsAppService.vonageWhatsAppNumber service)].
Proof.
  cbv zeta. split; [reflexivity|]. split; [reflexivity|]. vm_compute. discriminate.
Qed.

(** C10.  When the configured sender identity holds a ['+'], the two send
    operations use different identities: [sendTextMessage] sends from the
    identity without its first ['+'], and [sendTemplateMessage] sends from the
    identity as configured. *)
Theorem C10_sender_identities_differ (service : WhatsAppService.t)
    (recipient : JSValue) (body_text templateName templateLanguage : jsstring)
    (bodyParameters : option (list WhatsAppService.BodyParameter))
    (mediaUrl : option jsstring) (env : Env) :
  let s := WhatsAppService.vonageWhatsAppNumber service in
  In plus_sign s ->
  exists plain templated pre post,
    send_requests (trace (WhatsAppService.sendTextMessage service recipient body_text) env)
    = [plain]
    /\ send_requests
         (trace (WhatsAppService.sendTemplateMessage service recipient templateName
                   templateLanguage bodyParameters mediaUrl) env) = [templated]
    /\ s = pre ++ plus_sign :: post /\ ~ In plus_sign pre
    /\ from plain = pre ++ post
    /\ from templated = s
    /\ from plain <> from templated.
Proof.
  intros s Hs. destruct (first_plus s Hs) as (pre & post & Hsplit & Hpre).
  eexists _, _, pre, post.
  split; [apply sendTextMessage_request|].
  split; [apply sendTemplateMessage_request|].
  cbn [from]. fold s. change (js "+") with [plus_sign]. change (js "") with (@nil N).
  split; [exact Hsplit|]. split; [exact Hpre|].
  split; [rewrite Hsplit; now apply replace_plus_first|].
  split; [reflexivity|].
  intros Heq. pose proof (replace_plus_present s Hs) as Hlen.
  rewrite Heq in Hlen. lia.
Qed.

(* ================================================================== *)
(** * The claims on the samples                                        *)
(* ================================================================== *)

Lemma C1_unprintable_sender_witness :
  JSON_parse Samples.healthy Samples.unprintable_sender_body
  = Normal Samples.unprintable_sender_payload
  /\ (let t := trace (Index.vonage_inbound Samples.whatsapp Samples.ready_llm
                       Samples.unprintable_sender_body) Samples.healthy in
      generateReply_calls t = [] /\ responses t = []).
Proof.
  split; [reflexivity|].
  destruct (@C1_unprintable_sender_is_not_answered
              Samples.whatsapp Samples.ready_llm Samples.unprintable_sender_body
              Samples.healthy Samples.unprintable_sender_payload
              (JObject [ (js "toString", JNumber (S754_zero false)) ]) (js "hi")
              eq_refl eq_refl eq_refl eq_refl ltac:(discriminate) eq_refl)
    as (_ & Hg & _ & Hr).
  split; assumption.
Defined.

Lemma C2_malformed_body_witness :
  JSON_parse Samples.healthy Samples.malformed_body
  = Throw (SyntaxError (js "Unexpected token in JSON"))
  /\ responses (trace (Index.vonage_inbound Samples.whatsapp Samples.ready_llm
                         Samples.malformed_body) Samples.healthy)
     = [(400%N, js "Invalid JSON payload.")].
Proof.
  split; [reflexivity|].
  apply (@C2_malformed_body_is_refused Samples.whatsapp Samples.ready_llm
           Samples.malformed_body Samples.healthy _ eq_refl).
Defined.

Lemma C3_generation_down_witness :
  let question := JString (js "What is the VIP price?") in
  models_generateContent Samples.generation_down
    (generation_request Samples.ready_llm question) = Throw Samples.quota_exceeded
  /\ outcome (LLMService.generateReply Samples.ready_llm question) Samples.generation_down
     = Normal LLMService.fallback_reply
  /\ exists sender,
       sendTextMessage_calls
         (trace (Index.vonage_inbound Samples.whatsapp Samples.ready_llm Samples.text_body)
                Samples.generation_down)
       = [(sender, LLMService.fallback_reply)].
Proof.
  cbv zeta. split; [reflexivity|].
  destruct (@C3_generation_error_becomes_the_apology
              Samples.whatsapp Samples.ready_llm Samples.text_body Samples.generation_down
              (generation_request Samples.ready_llm (JString (js "What is the VIP price?")))
              Samples.quota_exceeded eq_refl)
    as (Hreply & _ & _ & Hsent).
  split.
  - apply Hreply. vm_compute. left. reflexivity.
  - destruct Hsent as (sender & m & Hc & _).
    + vm_compute. left. reflexivity.
    + exists sender. exact Hc.
Defined.

Lemma C4_null_payload_witness :
  JSON_parse Samples.healthy Samples.null_body = Normal JNull
  /\ responses (trace (Index.vonage_inbound Samples.whatsapp Samples.ready_llm
                         Samples.null_body) Samples.healthy) = [].
Proof.
  split; [reflexivity|].
  apply (@C4_null_payload_is_not_answered Samples.whatsapp Samples.ready_llm
           Samples.null_body Samples.healthy eq_refl).
Defined.

Lemma C6_healthy_reply_witness :
  let call := LLMService.generateReply Samples.ready_llm
                (JString (js "What is the VIP price?")) in
  LLMService.isReady Samples.ready_llm = Normal tt
  /\ LLMService.ai Samples.ready_llm = Some {| apiKey := Some (js "test-key") |}
  /\ outcome call Samples.healthy = Normal (trim (js "  The VIP Luxury Price is 235 euro. "))
  /\ trim (js "  The VIP Luxury Price is 235 euro. ") = js "The VIP Luxury Price is 235 euro.".
Proof.
  cbv zeta. split; [reflexivity|]. split; [reflexivity|]. split; [|reflexivity].
  destruct (@C6_generateReply_request_and_reply Samples.ready_llm
              {| apiKey := Some (js "test-key") |} (js "What is the VIP price?")
              Samples.healthy eq_refl eq_refl)
    as (p & _ & _ & _ & _ & _ & _ & Hreply).
  apply (Hreply (js "  The VIP Luxury Price is 235 euro. ") eq_refl).
Defined.

Lemma C7_broken_import_witness :
  (exists t0, run (LLMService.constructor (JObject []) (js "You are Ari."))
                  Samples.import_broken = (Normal Samples.failed_llm, t0))
  /\ outcome (LLMService._initializeClient (js "gemini-2.5-flash")) Samples.import_broken
     = Throw Samples.module_not_found
  /\ outcome (LLMService.generateReply Samples.failed_llm (JString (js "hi"))) Samples.healthy
     = Throw Samples.module_not_found
  /\ outcome (LLMService.generateReply Samples.failed_llm (JString (js "hi"))) Samples.healthy
     <> Throw LLMService.client_not_ready.
Proof.
  split; [eexists; reflexivity|]. split; [reflexivity|].
  destruct (@C7_failed_initialization_is_rethrown (JObject []) (js "You are Ari.")
              Samples.import_broken Samples.failed_llm _ Samples.module_not_found
              eq_refl eq_refl) as (_ & Hcall).
  destruct (Hcall (JString (js "hi")) Samples.healthy) as (Hthrown & Hother & _).
  split; [exact Hthrown|]. apply Hother. discriminate.
Defined.

Lemma C8_delivery_down_witness :
  let t := trace (Index.vonage_inbound Samples.whatsapp Samples.ready_llm Samples.text_body)
                 Samples.delivery_down in
  messages_send Samples.delivery_down Samples.reply_message = Throw Samples.unauthorized
  /\ In Samples.reply_message (send_requests t)
  /\ outcome (WhatsAppService.sendTextMessage Samples.whatsapp (JString (js "15551234567"))
                (js "The VIP Luxury Price is 235 euro.")) Samples.delivery_down
     = Throw (Error (js "Failed to send WhatsApp message: Request failed with status code 401"))
  /\ responses t = [(200%N, js "Message processed successfully.")].
Proof.
  cbv zeta. split; [reflexivity|]. split; [vm_compute; left; reflexivity|].
  destruct (@C8_send_failure_is_wrapped_and_absorbed
              Samples.whatsapp Samples.ready_llm Samples.text_body Samples.delivery_down
              Samples.reply_message Samples.unauthorized eq_refl)
    as (Hwrapped & Habsorbed).
  split.
  - apply Hwrapped. vm_compute. left. reflexivity.
  - apply Habsorbed. vm_compute. left. reflexivity.
Defined.

Lemma C10_leading_plus_witness :
  In plus_sign (WhatsAppService.vonageWhatsAppNumber Samples.whatsapp)
  /\ exists plain templated,
       send_requests
         (trace (WhatsAppService.sendTextMessage Samples.whatsapp
                   (JString (js "15551234567")) (js "hi")) Samples.healthy) = [plain]
       /\ send_requests
            (trace (WhatsAppService.sendTemplateMessage Samples.whatsapp
                      (JString (js "15551234567")) (js "athens_cruise_intro") (js "en")
                      (Some Samples.cruise_parameters) (Some Samples.banner))
                   Samples.healthy) = [templated]
       /\ from plain <> from templated.
Proof.
  assert (Hplus : In plus_sign (WhatsAppService.vonageWhatsAppNumber Samples.whatsapp)).
  { left. reflexivity. }
  split; [exact Hplus|].
  destruct (@C10_sender_identities_differ Samples.whatsapp (JString (js "15551234567"))
              (js "hi") (js "athens_cruise_intro") (js "en")
              (Some Samples.cruise_parameters) (Some Samples.banner) Samples.healthy Hplus)
    as (plain & templated & _ & _ & H1 & H2 & _ & _ & _ & _ & Hne).
  exists plain, templated. repeat split; assumption.
Defined.

Example C5_cruise_template :
  map (fun m => option_map components (template m))
      (send_requests
         (trace (WhatsAppService.sendTemplateMessage Samples.whatsapp
                   (JString (js "15551234567")) (js "athens_cruise_intro") (js "en")
                   (Some Samples.cruise_parameters) (Some Samples.banner))
                Samples.healthy))
  = [ Some [ {| component_type := header; parameters := [ImageParameter Samples.banner] |};
             {| component_type := body;
                parameters := [ TextParameter (JString (js "Sohan"));
                                TextParameter (JString (js "Standard Cruise"));
                                TextParameter (JString (js "119.00")) ] |} ] ].
Proof. reflexivity. Qed.

Example C9_leading_plus_sample :
  map from
      (send_requests
         (trace (WhatsAppService.sendTextMessage Samples.whatsapp
                   (JString (js "15551234567")) (js "hi")) Samples.healthy))
  = [js "14157386102"].
Proof. reflexivity. Qed.

Lemma text_message_pipeline_witness :
  let t := trace (Index.vonage_inbound Samples.whatsapp Samples.ready_llm Samples.text_body)
                 Samples.healthy in
  JSON_parse Samples.healthy Samples.text_body = Normal Samples.text_payload
  /\ generateReply_calls t = [JString (js "What is the VIP price?")]
  /\ sendTextMessage_calls t
     = [(JString (js "15551234567"), js "The VIP Luxury Price is 235 euro.")]
  /\ responses t = [(200%N, js "Message processed successfully.")].
Proof.
  cbv zeta. split; [reflexivity|].
  destruct (@text_message_pipeline Samples.whatsapp Samples.ready_llm Samples.text_body
              Samples.healthy Samples.text_payload (JString (js "15551234567"))
              (js "What is the VIP price?")
              eq_refl eq_refl eq_refl eq_refl ltac:(discriminate) eq_refl)
    as (_ & Hg & Hs & _ & Hr).
  split; [exact Hg|]. split; [|exact Hr].
  apply Hs. reflexivity.
Defined.

Lemma other_message_is_acknowledged_witness :
  let t := trace (Index.vonage_inbound Samples.whatsapp Samples.ready_llm Samples.image_body)
                 Samples.healthy in
  JSON_parse Samples.healthy Samples.image_body = Normal Samples.image_payload
  /\ responses t = [(200%N, js "Message processed successfully.")]
  /\ generateReply_calls t = [] /\ sendTextMessage_calls t = [].
Proof.
  cbv zeta. split; [reflexivity|].
  destruct (@other_message_is_acknowledged Samples.whatsapp Samples.ready_llm
              Samples.image_body Samples.healthy Samples.image_payload
              (JString (js "15551234567")) (JString (js "image")) JUndefined
              eq_refl eq_refl eq_refl eq_refl (or_intror eq_refl) eq_refl eq_refl)
    as (_ & Hr & Hg & Hs & _).
  - intros v Hv. injection Hv as <-. reflexivity.
  - intros v Hv. injection Hv as <-. reflexivity.
  - repeat split; assumption.
Defined.

(* ================================================================== *)
(** * Further properties of the code                                   *)
(* ================================================================== *)

Lemma trimStart_blank (s : jsstring) :
  forallb trimmable s = true -> trimStart s = [].
Proof.
  induction s as [|c s IH]; simpl; [reflexivity|].
  intros H. apply andb_true_iff in H as [Hc Hs]. rewrite Hc. now apply IH.
Qed.

Lemma trim_nil_iff (s : jsstring) :
  trim s = [] <-> forallb trimmable s = true.
Proof.
  split.
  - intros H. destruct (trim_spec s) as [(pre & post & Hs & Hpre & Hpost) _].
    rewrite H in Hs. rewrite Hs. cbn [app]. rewrite forallb_app, Hpre, Hpost. reflexivity.
  - intros H. unfold trim. now rewrite (trimStart_blank s H).
Qed.

Lemma trimStart_app (a x : jsstring) :
  trimStart a <> [] -> trimStart (a ++ x) = trimStart a ++ x.
Proof.
  induction a as [|c a IH]; simpl; [congruence|].
  destruct (trimmable c); [exact IH | reflexivity].
Qed.

Lemma trimEnd_app (x b : jsstring) :
  trimEnd b <> [] -> trimEnd (x ++ b) = x ++ trimEnd b.
Proof.
  unfold trimEnd. intros H. rewrite rev_app_distr, trimStart_app.
  - now rewrite rev_app_distr, rev_involutive.
  - intros E. apply H. now rewrite E.
Qed.


(** X4.  With the client initialised, [generateReply] on a user text never
    throws: it returns the trimmed text of the model when the back end
    answers with a text, and the fixed apology when the back end rejects the
    request or answers without a text. *)
Theorem generateReply_always_replies (service : LLMService.t) (client : AIClient)
    (userText : jsstring) (env : Env) :
  LLMService.isReady service = Normal tt ->
  LLMService.ai service = Some client ->
  exists reply,
    outcome (LLMService.generateReply service (JString userText)) env = Normal reply
    /\ match models_generateContent env (generation_request service (JString userText)) with
       | Normal response =>
           match response_text response with
           | Some s => reply = trim s
           | None => reply = LLMService.fallback_reply
           end
       | Throw _ => reply = LLMService.fallback_reply
       end.
Proof.
  intros Hr Ha.
  destruct (models_generateContent env (generation_request service (JString userText)))
    as [[[s|]]|e] eqn:Hb; cbn [response_text].
  - exists (trim s). split; [|reflexivity].
    rewrite_run (generateReply_success service (JString userText) env Hr Ha eq_refl Hb).
    reflexivity.
  - exists LLMService.fallback_reply. split; [|reflexivity].
    rewrite_run (generateReply_no_text service (JString userText) env Hr Ha eq_refl Hb).
    reflexivity.
  - exists LLMService.fallback_reply. split; [|reflexivity].
    rewrite_run (generateReply_backend_throws service (JString userText) env Hr Ha eq_refl Hb).
    reflexivity.
Qed.

(** X5.  A text of the model is never replaced: the reply is empty exactly
    when the text holds nothing but white space and line terminators, and an
    empty reply is returned as it is, not as the apology. *)
Theorem generateReply_blank_text (service : LLMService.t) (client : AIClient)
    (userText s : jsstring) (env : Env) :
  LLMService.isReady service = Normal tt ->
  LLMService.ai service = Some client ->
  models_generateContent env (generation_request service (JString userText))
  = Normal {| response_text := Some s |} ->
  let reply := outcome (LLMService.generateReply service (JString userText)) env in
  (reply = Normal [] <-> forallb trimmable s = true)
  /\ (forallb trimmable s = true -> reply <> Normal LLMService.fallback_reply).
Proof.
  intros Hr Ha Hb reply. unfold reply.
  rewrite_run (generateReply_success service (JString userText) env Hr Ha eq_refl Hb).
  split.
  - rewrite <- trim_nil_iff. split; [intros H; now injection H | intros ->; reflexivity].
  - intros H. apply trim_nil_iff in H. rewrite H. discriminate.
Qed.

(** X6.  A service built by the constructor has a client exactly when its
    readiness promise resolved, so the readiness guard of [generateReply]
    never fires on it: a call throws the "not ready" error only when the
    initialisation itself failed with that error. *)
Theorem constructed_service_guard_is_dead (loaded : JSValue) (prompt : jsstring)
    (env0 : Env) (service : LLMService.t) (t0 : list Event) :
  run (LLMService.constructor loaded prompt) env0 = (Normal service, t0) ->
  ((exists client, LLMService.ai service = Some client
                   /\ LLMService.isReady service = Normal tt)
   \/ (exists e, LLMService.ai service = None /\ LLMService.isReady service = Throw e))
  /\ forall userMessage env,
       outcome (LLMService.generateReply service userMessage) env
       = Throw LLMService.client_not_ready ->
       LLMService.isReady service = Throw LLMService.client_not_ready.
Proof.
  intros Hc. apply constructor_settles in Hc.
  destruct (outcome (LLMService._initializeClient (js "gemini-2.5-flash")) env0)
    as [client|e]; destruct Hc as [Ha Hr].
  - split; [left; eauto|]. intros userMessage env.
    destruct (stringifies userMessage) eqn:Hs.
    + destruct (models_generateContent env (generation_request service userMessage))
        as [[[s|]]|e] eqn:Hb.
      * rewrite_run (generateReply_success service userMessage env Hr Ha Hs Hb). discriminate.
      * rewrite_run (generateReply_no_text service userMessage env Hr Ha Hs Hb). discriminate.
      * rewrite_run (generateReply_backend_throws service userMessage env Hr Ha Hs Hb).
        discriminate.
    + rewrite_run (generateReply_unprintable service userMessage env Hr Ha Hs). discriminate.
  - split; [right; eauto|]. intros userMessage env.
    rewrite_run (generateReply_rejected service userMessage env Hr). congruence.
Qed.

(** X7.  [sendTemplateMessage] makes one attempt: it gives the SDK exactly one
    request (to the recipient, from the configured identity as it is, on the
    whatsapp channel, of type template, with the template name and language
    code given); when the SDK accepts, the method returns the SDK's response
    unchanged; when the SDK rejects, it throws an [Error] whose message is
    ["Failed to send rich media template: "] followed by the message of the
    SDK's error. *)
Theorem sendTemplateMessage_single_attempt (service : WhatsAppService.t) (to : JSValue)
    (templateName templateLanguage : jsstring)
    (bodyParameters : option (list WhatsAppService.BodyParameter))
    (mediaUrl : option jsstring) (env : Env) :
  let call := WhatsAppService.sendTemplateMessage service to templateName templateLanguage
                bodyParameters mediaUrl in
  exists m tpl,
    send_requests (trace call env) = [m]
    /\ Runtime.to m = to
    /\ from m = WhatsAppService.vonageWhatsAppNumber service
    /\ channel m = js "whatsapp" /\ messageType m = js "template" /\ text m = None
    /\ template m = Some tpl /\ name tpl = templateName /\ language_code tpl = templateLanguage
    /\ match messages_send env m with
       | Normal response =>
           run call env
           = (Normal response,
              [Called (sendTemplateMessage_called to templateName); MessagesSend m;
               Console log (WaTemplateSent (message_uuid response))])
       | Throw e =>
           run call env
           = (Throw (Error (js "Failed to send rich media template: " ++ error_message e)),
              [Called (sendTemplateMessage_called to templateName); MessagesSend m;
               Console error (WaErrorSendingTemplate e)])
       end.
Proof.
  intros call. eexists _, _.
  split; [apply sendTemplateMessage_request|].
  cbn [Runtime.to from channel messageType text template name language_code].
  repeat (split; [reflexivity|]).
  unfold call, WhatsAppService.sendTemplateMessage, WhatsAppService.given,
    WhatsAppService.non_empty.
  unfold_run.
  destruct mediaUrl as [[|c url]|], bodyParameters as [[|p l]|]; cbn [app];
    match goal with
    | |- context [messages_send env ?m] => destruct (messages_send env m)
    end; reflexivity.
Qed.

(** X8.  [sendTextMessage] makes one attempt: it gives the SDK exactly one
    request, a text message on the whatsapp channel with the recipient and the
    text given; when the SDK accepts, the method returns the SDK's response
    unchanged and logs its [message_uuid]; when the SDK rejects, it throws and
    returns nothing. *)
Theorem sendTextMessage_single_attempt (service : WhatsAppService.t) (to : JSValue)
    (text : jsstring) (env : Env) :
  let call := WhatsAppService.sendTextMessage service to text in
  exists m,
    send_requests (trace call env) = [m]
    /\ Runtime.to m = to /\ Runtime.text m = Some text
    /\ channel m = js "whatsapp" /\ messageType m = js "text" /\ template m = None
    /\ match messages_send env m with
       | Normal response =>
           run call env
           = (Normal response,
              [Called (sendTextMessage_called to text); MessagesSend m;
               Console log (WaMessageSent (message_uuid response))])
       | Throw e =>
           exists thrown,
             run call env
             = (Throw thrown,
                [Called (sendTextMessage_called to text); MessagesSend m;
                 Console error (WaErrorSending e)])
       end.
Proof.
  intros call. eexists. split; [apply sendTextMessage_request|].
  cbn [Runtime.to Runtime.text channel messageType template].
  repeat (split; [reflexivity|]).
  match goal with
  | |- context [messages_send env ?m] => destruct (messages_send env m) as [response|e] eqn:H
  end.
  - exact (sendTextMessage_accepted service to text env H).
  - eexists. exact (sendTextMessage_refused service to text env H).
Qed.

(** X9.  The components list of a template send has at most two elements, a
    header only in front; it is empty exactly when [mediaUrl] is null or the
    empty string and [bodyParameters] is null or empty; an empty string as
    [mediaUrl] gives no header; and a body component never has zero text
    parameters. *)
Theorem template_components_edges (service : WhatsAppService.t) (to : JSValue)
    (templateName templateLanguage : jsstring)
    (bodyParameters : option (list WhatsAppService.BodyParameter))
    (mediaUrl : option jsstring) (env : Env) :
  exists m tpl,
    send_requests
      (trace (WhatsAppService.sendTemplateMessage service to templateName
                templateLanguage bodyParameters mediaUrl) env) = [m]
    /\ template m = Some tpl
    /\ List.length (components tpl) <= 2
    /\ (components tpl = [] <->
        (mediaUrl = None \/ mediaUrl = Some [])
        /\ (bodyParameters = None \/ bodyParameters = Some []))
    /\ (mediaUrl = Some [] -> forall c, In c (components tpl) -> component_type c <> header)
    /\ (forall i c, nth_error (components tpl) i = Some c ->
                    component_type c = header -> i = 0)
    /\ (forall c, In c (components tpl) -> component_type c = body -> parameters c <> []).
Proof.
  eexists _, _. split; [apply sendTemplateMessage_request|].
  split; [reflexivity|]. cbn [components].
  destruct mediaUrl as [[|c url]|], bodyParameters as [[|p l]|]; cbn [app List.length].
  all: split; [lia|].
  all: split;
    [ split;
      [ intros H; try discriminate H;
        split; first [left; reflexivity | right; reflexivity]
      | intros [[H|H] [H'|H']];
        first [reflexivity | discriminate H | discriminate H'] ]
    | ].
  all: split;
    [ intros H; try discriminate H; intros x Hx; cbn [In] in Hx;
      repeat (destruct Hx as [Hx|Hx]; [subst x; discriminate|]); destruct Hx
    | ].
  all: split;
    [ intros i x Hx Hh; destruct i as [|[|i]]; cbn in Hx;
      first [ reflexivity
            | discriminate Hx
            | injection Hx as <-; discriminate Hh
            | destruct i; discriminate Hx ]
    | intros x Hx Hb; cbn [In] in Hx;
      repeat (destruct Hx as [Hx|Hx];
              [subst x; first [discriminate Hb | cbn; discriminate]|]);
      destruct Hx ].
Qed.



(** The shape of the system prompt: [trim] works on the template only. *)
Lemma system_prompt_shape (JSON_stringify : JSValue -> jsstring) (knowledgeBase : JSValue) :
  Startup._buildSystemPrompt JSON_stringify knowledgeBase
  = trimStart Startup.prompt_head ++ JSON_stringify knowledgeBase
    ++ trimEnd Startup.prompt_tail.
Proof.
  assert (Hopen : trimStart Startup.prompt_head <> []) by (vm_compute; discriminate).
  assert (Hclose : trimEnd Startup.prompt_tail <> []) by (vm_compute; discriminate).
  unfold Startup._buildSystemPrompt, trim. cbv zeta.
  rewrite (trimStart_app Startup.prompt_head _ Hopen).
  rewrite app_assoc. rewrite (trimEnd_app _ Startup.prompt_tail Hclose).
  now rewrite <- app_assoc.
Qed.

(** X11.  The system prompt is the fixed opening, the serialisation of the
    knowledge base exactly as [JSON.stringify] gave it, and the fixed closing:
    the final [trim] removes the line break and indentation around the
    template and touches nothing of the serialisation.  The prompt starts
    with ["You are Ari, "], ends with a line of three dashes, and has no
    white space at either end, whatever the knowledge base is. *)
Theorem system_prompt_embeds_knowledge_base (JSON_stringify : JSValue -> jsstring)
    (knowledgeBase : JSValue) :
  let opening := trimStart Startup.prompt_head in
  let closing := trimEnd Startup.prompt_tail in
  Startup._buildSystemPrompt JSON_stringify knowledgeBase
  = opening ++ JSON_stringify knowledgeBase ++ closing
  /\ (exists rest, opening = js "You are Ari, " ++ rest)
  /\ closing = [10%N] ++ js "            ---"
  /\ clean_ends (Startup._buildSystemPrompt JSON_stringify knowledgeBase).
Proof.
  intros opening closing.
  assert (Hbuild : Startup._buildSystemPrompt JSON_stringify knowledgeBase
                   = opening ++ JSON_stringify knowledgeBase ++ closing)
    by apply system_prompt_shape.
  split; [exact Hbuild|]. split; [|split].
  - unfold opening. eexists. vm_compute. reflexivity.
  - unfold closing. vm_compute. reflexivity.
  - unfold Startup._buildSystemPrompt. apply trim_spec.
Qed.


(** The two ways in which the [LLMService] constructor ends. *)
Lemma llm_constructor_cases (loaded : JSValue) (prompt : jsstring) (env : Env) :
  if LLMService.unset (GEMINI_API_KEY env) then
    run (LLMService.constructor loaded prompt) env
    = (Throw (Error (js "CRITICAL: LLMService failed: GEMINI_API_KEY is not set. Cannot initialize.")),
       [])
  else
    exists service t,
      run (LLMService.constructor loaded prompt) env = (Normal service, t)
      /\ LLMService.model service = js "gemini-2.5-flash"
      /\ LLMService.knowledgeBase service = loaded
      /\ LLMService.systemPrompt service = prompt.
Proof.
  unfold LLMService.constructor. unfold_run.
  destruct (LLMService.unset (GEMINI_API_KEY env)); [reflexivity|].
  destruct (LLMService._initializeClient (js "gemini-2.5-flash") env) as [[client|e] t];
    eexists _, _; repeat split.
Qed.

(** X13.  Start-up, as [index.js] orders it.  Without a sender number
    (unset or empty) it throws before anything else is done; with a sender
    number but without an API key it throws after the messaging service has
    been built and before the import is tried; with both it always returns the
    two services, whatever the import and the knowledge-base file do: a failed
    import only leaves the service without a client and with a rejected
    readiness promise, and the prompt is built from whatever
    [_loadKnowledgeBase] returned. *)
Theorem startup_outcomes (file : Completion jsstring)
    (JSON_stringify : JSValue -> jsstring) (env : Env) :
  let start := Startup.services file JSON_stringify in
  match VONAGE_WHATSAPP_NUMBER env with
  | Some (c :: number) =>
      if LLMService.unset (GEMINI_API_KEY env) then
        run start env
        = (Throw (Error (js "CRITICAL: LLMService failed: GEMINI_API_KEY is not set. Cannot initialize.")),
           [Console log (WaInitialized (c :: number))])
      else
        exists llmService t,
          run start env
          = (Normal ({| WhatsAppService.vonageWhatsAppNumber := c :: number |}, llmService),
             Console log (WaInitialized (c :: number)) :: t)
          /\ LLMService.knowledgeBase llmService
             = Startup.knowledge (Startup._loadKnowledgeBase file env)
          /\ LLMService.systemPrompt llmService
             = Startup._buildSystemPrompt JSON_stringify
                 (Startup.knowledge (Startup._loadKnowledgeBase file env))
          /\ match import_genai env with
             | Throw e =>
                 LLMService.ai llmService = None /\ LLMService.isReady llmService = Throw e
             | Normal geminiModule =>
                 match GoogleGenAI geminiModule (GEMINI_API_KEY env) with
                 | Normal client =>
                     LLMService.ai llmService = Some client
                     /\ LLMService.isReady llmService = Normal tt
                 | Throw e =>
                     LLMService.ai llmService = None
                     /\ LLMService.isReady llmService = Throw e
                 end
             end
  | Some [] | None =>
      run start env
      = (Throw (Error (js "VONAGE_WHATSAPP_NUMBER is not set. Cannot initialize WhatsAppService.")),
         [])
  end.
Proof.
  intros start. unfold start, Startup.services, Startup.new_LLMService,
    WhatsAppService.constructor.
  unfold_run.
  destruct (VONAGE_WHATSAPP_NUMBER env) as [[|c number]|]; try reflexivity.
  cbn [app].
  pose proof (llm_constructor_cases
                (Startup.knowledge (Startup._loadKnowledgeBase file env))
                (Startup._buildSystemPrompt JSON_stringify
                   (Startup.knowledge (Startup._loadKnowledgeBase file env))) env) as Hc.
  unfold run in Hc.
  destruct (LLMService.unset (GEMINI_API_KEY env)).
  - rewrite Hc. reflexivity.
  - destruct Hc as (service & t & Hrun & _ & Hk & Hp).
    pose proof (constructor_settles _ _ _ Hrun) as Hs.
    rewrite Hrun. exists service, t. split; [now rewrite app_nil_r|].
    split; [exact Hk|]. split; [exact Hp|].
    revert Hs. unfold LLMService._initializeClient. unfold_run.
    destruct (import_genai env) as [geminiModule|e]; [|exact (fun H => H)].
    destruct (GoogleGenAI geminiModule (GEMINI_API_KEY env)); exact (fun H => H).
Qed.

Section InboundFurther.
Variables (whatsAppService : WhatsAppService.t) (llmService : LLMService.t).
Variables (body : jsstring) (env : Env).

Let handler : M unit := Index.vonage_inbound whatsAppService llmService body.

(** X14.  When the readiness promise of the generation service is rejected
    with [e], a text message is still acknowledged with 200: the handler
    issues no generation request and no send request, so the user receives no
    reply at all, and the message of [e] is logged as the critical failure. *)
Theorem unready_service_is_absorbed (message sender textContent : JSValue) (e : JSError) :
  JSON_parse env body = Normal message ->
  text_message message sender textContent ->
  stringifies sender = true -> stringifies textContent = true ->
  LLMService.isReady llmService = Throw e ->
  outcome handler env = Normal tt
  /\ responses (trace handler env) = [(200%N, js "Message processed successfully.")]
  /\ generation_requests (trace handler env) = []
  /\ sendTextMessage_calls (trace handler env) = []
  /\ send_requests (trace handler env) = []
  /\ In (Console error (CriticalFailure (error_message e))) (trace handler env).
Proof.
  intros Hparse Htext Hp1 Hp2 Hr.
  destruct (inbound_text_observed whatsAppService llmService body env Hparse Htext Hp1 Hp2)
    as (H1 & H2 & _ & Hg & Hsend).
  fold handler in H1, H2, Hg, Hsend.
  pose proof (generateReply_rejected llmService textContent env Hr) as Hrun.
  unfold run in Hrun. unfold outcome, trace in Hg, Hsend. rewrite Hrun in Hg, Hsend.
  cbn [fst snd] in Hg, Hsend. destruct Hsend as (Hc & Hs & Hin).
  repeat split; assumption.
Qed.

(** X15.  A webhook call makes at most one generation request and at most one
    send request, and what it sends is only ever the reply: a send request
    exists only for a text message for which [generateReply] returned, and it
    is the text message to the [from] of the payload, from the configured
    number without its first ['+'], whose text is the returned reply. *)
Theorem handler_sends_only_the_reply :
  let t := trace handler env in
  List.length (generation_requests t) <= 1
  /\ List.length (send_requests t) <= 1
  /\ forall m, In m (send_requests t) ->
       exists message sender textContent llmReply,
         JSON_parse env body = Normal message
         /\ text_message message sender textContent
         /\ outcome (LLMService.generateReply llmService textContent) env = Normal llmReply
         /\ m = {| to := sender;
                   from := replace (js "+") (js "")
                             (WhatsAppService.vonageWhatsAppNumber whatsAppService);
                   channel := js "whatsapp";
                   messageType := js "text";
                   text := Some llmReply;
                   template := None |}.
Proof.
  cbv zeta.
  destruct (inbound_pipeline_or_quiet whatsAppService llmService body env)
    as [(message & sender & textContent & Hparse & Htext & Hp1 & Hp2) | Hq].
  - destruct (inbound_text_observed whatsAppService llmService body env Hparse Htext Hp1 Hp2)
      as (_ & _ & _ & Hg & Hsend).
    fold handler in Hg, Hsend. rewrite Hg.
    destruct (generateReply_shape llmService textContent env)
      as (t1 & Ht1 & _ & _ & _ & _ & Hgen).
    split.
    { rewrite Ht1. unfold generation_requests in *. cbn [flat_map app].
      destruct Hgen as [-> | ->]; cbn; lia. }
    destruct (outcome (LLMService.generateReply llmService textContent) env)
      as [llmReply|e] eqn:Ho.
    + destruct Hsend as (_ & Hs & _). rewrite Hs, sendTextMessage_request.
      split; [cbn; lia|]. intros m [<-|[]].
      exists message, sender, textContent, llmReply. auto.
    + destruct Hsend as (_ & Hs & _). rewrite Hs. split; [cbn; lia | intros m []].
  - destruct Hq as (_ & _ & Hg & Hs). fold handler in Hg, Hs. rewrite Hg, Hs.
    split; [cbn; lia|]. split; [cbn; lia | intros m []].
Qed.

(** X16.  The handler does not look at the reply before sending it: when the
    model answers a text message with white space only, the reply is the empty
    string and the handler sends a text message with an empty text. *)
Theorem blank_reply_is_still_sent (message sender : JSValue) (userText s : jsstring)
    (client : AIClient) :
  JSON_parse env body = Normal message ->
  text_message message sender (JString userText) ->
  stringifies sender = true ->
  LLMService.isReady llmService = Normal tt ->
  LLMService.ai llmService = Some client ->
  models_generateContent env (generation_request llmService (JString userText))
  = Normal {| response_text := Some s |} ->
  forallb trimmable s = true ->
  sendTextMessage_calls (trace handler env) = [(sender, [])]
  /\ map text (send_requests (trace handler env)) = [Some []]
  /\ responses (trace handler env) = [(200%N, js "Message processed successfully.")].
Proof.
  intros Hparse Htext Hp1 Hr Ha Hb Hblank.
  destruct (inbound_text_observed whatsAppService llmService body env Hparse Htext Hp1 eq_refl)
    as (_ & H2 & _ & _ & Hsend).
  fold handler in H2, Hsend.
  pose proof (generateReply_success llmService (JString userText) env Hr Ha eq_refl Hb) as Hrun.
  unfold run in Hrun. unfold outcome in Hsend. rewrite Hrun in Hsend. cbn [fst] in Hsend.
  apply trim_nil_iff in Hblank. rewrite Hblank in Hsend.
  destruct Hsend as (Hc & Hs & _).
  split; [exact Hc|]. split; [|exact H2].
  rewrite Hs, sendTextMessage_request. reflexivity.
Qed.

End InboundFurther.

(* ================================================================== *)
(** * The further properties on the samples                            *)
(* ================================================================== *)

Lemma generateReply_always_replies_witness :
  let question := JString (js "What is the VIP price?") in
  LLMService.isReady Samples.ready_llm = Normal tt
  /\ models_generateContent MoreSamples.silent_model
       (generation_request Samples.ready_llm question)
     = Normal {| response_text := None |}
  /\ outcome (LLMService.generateReply Samples.ready_llm question) MoreSamples.silent_model
     = Normal LLMService.fallback_reply.
Proof.
  cbv zeta. split; [reflexivity|]. split; [reflexivity|].
  destruct (@generateReply_always_replies Samples.ready_llm
              {| apiKey := Some (js "test-key") |} (js "What is the VIP price?")
              MoreSamples.silent_model eq_refl eq_refl) as (reply & Ho & Hm).
  change (reply = LLMService.fallback_reply) in Hm. rewrite <- Hm. exact Ho.
Defined.

Lemma generateReply_blank_text_witness :
  let question := JString (js "What is the VIP price?") in
  models_generateContent MoreSamples.blank_model
    (generation_request Samples.ready_llm question) = Normal MoreSamples.blank_answer
  /\ forallb trimmable [32%N; 10%N; 9%N] = true
  /\ outcome (LLMService.generateReply Samples.ready_llm question) MoreSamples.blank_model
     = Normal [].
Proof.
  cbv zeta. split; [reflexivity|]. split; [reflexivity|].
  destruct (@generateReply_blank_text Samples.ready_llm
              {| apiKey := Some (js "test-key") |} (js "What is the VIP price?")
              [32%N; 10%N; 9%N] MoreSamples.blank_model eq_refl eq_refl eq_refl)
    as (Hiff & _).
  apply Hiff. reflexivity.
Defined.

Lemma constructed_service_guard_is_dead_witness :
  (exists t0, run (LLMService.constructor (JObject []) (js "You are Ari.")) Samples.healthy
              = (Normal Samples.ready_llm, t0))
  /\ exists client, LLMService.ai Samples.ready_llm = Some client
                    /\ LLMService.isReady Samples.ready_llm = Normal tt.
Proof.
  split; [eexists; reflexivity|].
  destruct (@constructed_service_guard_is_dead (JObject []) (js "You are Ari.")
              Samples.healthy Samples.ready_llm _ eq_refl) as ([H | (e & H & _)] & _).
  - exact H.
  - discriminate H.
Defined.


Lemma unready_service_is_absorbed_witness :
  let t := trace (Index.vonage_inbound Samples.whatsapp Samples.failed_llm Samples.text_body)
                 Samples.healthy in
  JSON_parse Samples.healthy Samples.text_body = Normal Samples.text_payload
  /\ LLMService.isReady Samples.failed_llm = Throw Samples.module_not_found
  /\ send_requests t = []
  /\ responses t = [(200%N, js "Message processed successfully.")].
Proof.
  cbv zeta. split; [reflexivity|]. split; [reflexivity|].
  destruct (@unready_service_is_absorbed Samples.whatsapp Samples.failed_llm
              Samples.text_body Samples.healthy Samples.text_payload
              (JString (js "15551234567")) (JString (js "What is the VIP price?"))
              Samples.module_not_found eq_refl
              (conj eq_refl (conj eq_refl (conj eq_refl eq_refl)))
              eq_refl eq_refl eq_refl) as (_ & Hr & _ & _ & Hs & _).
  split; assumption.
Defined.

Lemma blank_reply_is_still_sent_witness :
  let t := trace (Index.vonage_inbound Samples.whatsapp Samples.ready_llm Samples.text_body)
                 MoreSamples.blank_model in
  JSON_parse MoreSamples.blank_model Samples.text_body = Normal Samples.text_payload
  /\ map text (send_requests t) = [Some []].
Proof.
  cbv zeta. split; [reflexivity|].
  destruct (@blank_reply_is_still_sent Samples.whatsapp Samples.ready_llm
              Samples.text_body MoreSamples.blank_model Samples.text_payload
              (JString (js "15551234567")) (js "What is the VIP price?")
              [32%N; 10%N; 9%N] {| apiKey := Some (js "test-key") |} eq_refl
              (conj eq_refl (conj eq_refl (conj eq_refl eq_refl)))
              eq_refl eq_refl eq_refl eq_refl eq_refl) as (_ & Hs & _).
  exact Hs.
Defined.

Example startup_on_samples :
  outcome (Startup.services MoreSamples.file_missing MoreSamples.stringify_samples)
          Samples.import_broken
  = Normal (Samples.whatsapp,
            {| LLMService.ai := None;
               LLMService.model := js "gemini-2.5-flash";
               LLMService.knowledgeBase := JObject [];
               LLMService.systemPrompt :=
                 trimStart Startup.prompt_head ++ js "{}" ++ trimEnd Startup.prompt_tail;
               LLMService.isReady := Throw Samples.module_not_found |}).
Proof. vm_compute. reflexivity. Qed.
